(** * Dynamic tag synchronisation: cloud inventory to NGFW IP lists

    A shallow embedding of the three collector scripts

      - [aws/main.py]   (EC2 instances, boto3 paginator),
      - [azure/main.py] (virtual machines per subscription),
      - [gcp/main.py]   (instances per zone),

    each of which lists the virtual machines of one cloud provider, folds
    their private addresses into a dictionary [iplists] keyed by a group name
    built from the tags, and sends every entry of that dictionary to the
    management server with [IPList.update_or_create].

    Python values are modelled as follows.
      - [str] is [string]; [s.replace(' ', '_')] is [replace_spaces].
      - A [dict] with string keys is an association list with pairwise
        distinct keys, kept in insertion order, because [dict.items()]
        iterates in insertion order and the publish loop issues its calls in
        that order.
      - [d.get(k)] on a key that may be missing is an [option].
      - An address is a value of an arbitrary type [A]: no script ever looks
        inside an address.
      - A script run is a computation in the monad [run]: it writes a trace
        of observable events and ends in a value, in an uncaught exception or
        in [sys.exit(code)]. The events are the lines the script writes to
        standard output and its calls to the management server. The requests
        to the cloud provider are not events: their answers are the input of
        a run, and they are taken to succeed.
      - The runs are those without [--debug]: the logger stays at the level
        ERROR that [init_logging] sets, so that [logger.info] and
        [logger.debug] write nothing and [logger.error] writes a line. *)

From Stdlib Require Import String Ascii List Bool Arith Lia ZArith.
Import ListNotations.
Open Scope string_scope.
Open Scope list_scope.

Set Implicit Arguments.

(** ** Python strings *)

Module Py.

(** Truth value of a [str]: the empty string is false. *)
Definition truthy_str (s : string) : bool :=
  match s with
  | EmptyString => false
  | String _ _ => true
  end.

(** Truth value of an optional [str]: [None] is false. *)
Definition truthy_opt (o : option string) : bool :=
  match o with
  | None => false
  | Some s => truthy_str s
  end.

(** Truth value of a list: the empty list is false. *)
Definition truthy_list {X : Type} (l : list X) : bool :=
  match l with
  | [] => false
  | _ :: _ => true
  end.

(** [d.get(k, default)] once the look-up [d.get(k)] is an option. *)
Definition get_or {X : Type} (o : option X) (default : X) : X :=
  match o with
  | Some x => x
  | None => default
  end.

Definition space : ascii := " "%char.
Definition underscore : ascii := "_"%char.

(** [s.replace(' ', '_')]: both patterns are one character long, so the
    replacement is character by character. *)
Fixpoint replace_spaces (s : string) : string :=
  match s with
  | EmptyString => EmptyString
  | String c r =>
      String (if Ascii.eqb c space then underscore else c) (replace_spaces r)
  end.

(** Does the string contain the character? *)
Fixpoint contains (c : ascii) (s : string) : bool :=
  match s with
  | EmptyString => false
  | String d r => Ascii.eqb d c || contains c r
  end.

(** The exceptions that matter here. [TypeError] is what
    [list.extend(None)] raises, and what calling [.items()] raises on the
    pager returned by the zone listing; [ApiError] stands for any exception
    raised by the management client. *)
Inductive exn : Type :=
| TypeError
| ApiError.

(** [f"{o}"] for a value that is a [str] or [None]. *)
Definition str_opt (o : option string) : string :=
  match o with
  | Some s => s
  | None => "None"
  end.

(** [s.split(sep)] for a separator of one character: the pieces between
    the separators; there is always at least one piece. *)
Fixpoint split (sep : ascii) (s : string) : list string :=
  match s with
  | EmptyString => [EmptyString]
  | String c r =>
      if Ascii.eqb c sep then EmptyString :: split sep r
      else match split sep r with
           | [] => [String c EmptyString]
           | piece :: pieces => String c piece :: pieces
           end
  end.

(** [sep.join(pieces)] *)
Fixpoint join (sep : ascii) (pieces : list string) : string :=
  match pieces with
  | [] => EmptyString
  | piece :: rest =>
      match rest with
      | [] => piece
      | _ :: _ => (piece ++ String sep (join sep rest))%string
      end
  end.

(** [s.count(c)] *)
Fixpoint count (c : ascii) (s : string) : nat :=
  match s with
  | EmptyString => 0
  | String d r => (if Ascii.eqb d c then 1 else 0) + count c r
  end.

End Py.

(** ** Insertion-ordered dictionaries with string keys *)

Module Dict.
Section Dict.

Context {V : Type}.

Definition t : Type := list (string * V).

Definition empty : t := [].

Definition keys (d : t) : list string := map fst d.

(** [d.items()] *)
Definition items (d : t) : list (string * V) := d.

(** [d.get(k)] *)
Fixpoint get (k : string) (d : t) : option V :=
  match d with
  | [] => None
  | (k', v) :: r => if String.eqb k k' then Some v else get k r
  end.

(** [k in d] *)
Definition mem (k : string) (d : t) : bool :=
  match get k d with
  | Some _ => true
  | None => false
  end.

(** [d.setdefault(k, default)], the dictionary afterwards: a missing key is
    added at the end, a present key keeps its place and its value. *)
Definition setdefault (k : string) (default : V) (d : t) : t :=
  if mem k d then d else d ++ [(k, default)].

(** In-place update of the value stored at [k]. *)
Fixpoint update (k : string) (f : V -> V) (d : t) : t :=
  match d with
  | [] => []
  | (k', v) :: r =>
      if String.eqb k k' then (k', f v) :: r else (k', v) :: update k f r
  end.

(** [d[k] = v]: a present key keeps its place and takes the new value, a
    missing key is added at the end. *)
Definition set (k : string) (v : V) (d : t) : t :=
  if mem k d then update k (fun _ => v) d else d ++ [(k, v)].

End Dict.
End Dict.

Arguments Dict.t : clear implicits.

(** ** The group aggregate [iplists] *)

Section Aggregate.

Context {A : Type}.

(** [iplists]: group name to list of addresses. *)
Definition iplists : Type := Dict.t (list A).

(** [iplists.setdefault(name, []).extend(addrs)]: [setdefault] returns the
    list stored under [name] (a fresh empty one if the key is new) and
    [extend] appends to that very list. *)
Definition setdefault_extend (name : string) (addrs : list A)
           (d : iplists) : iplists :=
  Dict.update name (fun l => l ++ addrs) (Dict.setdefault name [] d).

(** The addresses of a group; a group that does not exist has none. *)
Definition addresses_of (name : string) (d : iplists) : list A :=
  Py.get_or (Dict.get name d) [].

End Aggregate.

(** ** Script runs: a trace of observable events and an outcome *)

Section Run.

(** [I] is whatever a script pretty-prints of the data it collected, [A]
    the type of addresses. *)
Context {I A : Type}.

Inductive event : Type :=
| PrintData (d : I)                  (* [pprint] of collected inventory *)
| PrintText (s : string)             (* [print(f"...")] of a progress line *)
| PrintAggregate (g : @iplists A)    (* [pprint(iplists)] *)
| Login                              (* [session.login()] *)
| UpdateOrCreate (name : string) (iplist : list A) (append_lists : bool)
                                     (* [IPList.update_or_create(...)] *)
| PrintOperated (name : string)      (* [print(f"Operated on iplist {thelist}")] *)
| LogError (message : string).       (* [logger.error(message)], a line on
                                        standard output *)

Inductive result (X : Type) : Type :=
| Ok (x : X)
| Raise (e : Py.exn)                 (* uncaught exception *)
| SysExit (code : Z).                (* [sys.exit(code)] *)

Definition run (X : Type) : Type := (list event * result X)%type.

Definition ret {X : Type} (x : X) : run X := ([], Ok x).

Definition bind {X Y : Type} (m : run X) (k : X -> run Y) : run Y :=
  match m with
  | (tr, Ok x) => let (tr', r) := k x in (tr ++ tr', r)
  | (tr, Raise _ e) => (tr, Raise _ e)
  | (tr, SysExit _ c) => (tr, SysExit _ c)
  end.

Definition emit (e : event) : run unit := ([e], Ok tt).
Definition raise {X : Type} (e : Py.exn) : run X := ([], Raise X e).
Definition sys_exit {X : Type} (code : Z) : run X := ([], SysExit X code).

(** [if c: body] with no [else]. *)
Definition when (c : bool) (body : run unit) : run unit :=
  if c then body else ret tt.

(** [for x in l: body(x)] *)
Fixpoint for_each {X : Type} (l : list X) (body : X -> run unit) : run unit :=
  match l with
  | [] => ret tt
  | x :: r => bind (body x) (fun _ => for_each r body)
  end.

(** [for x in l: acc = body(acc, x)], for a loop that updates a variable
    and may raise. *)
Fixpoint fold_run {X S : Type} (body : S -> X -> run S) (l : list X) (acc : S)
  : run S :=
  match l with
  | [] => ret acc
  | x :: r => bind (body acc x) (fun acc' => fold_run body r acc')
  end.

Definition trace {X : Type} (m : run X) : list event := fst m.
Definition outcome {X : Type} (m : run X) : result X := snd m.

(** *** The management server, as the scripts see it

    The [smc] client library is not part of this repository. A run is
    given the answers of the server: whether [session.login()] succeeds and
    whether a given [update_or_create] call succeeds; a call that does not
    succeed raises. *)
Record smc : Type := {
  login_ok : bool;
  update_ok : string -> list A -> bool
}.

Definition session_login (server : smc) : run unit :=
  bind (emit Login)
       (fun _ => if login_ok server then ret tt else raise Py.ApiError).

Definition update_or_create (server : smc) (name : string) (iplist : list A)
           (append_lists : bool) : run unit :=
  bind (emit (UpdateOrCreate name iplist append_lists))
       (fun _ => if update_ok server name iplist then ret tt
                 else raise Py.ApiError).

(** The publish loop, textually the same in the three scripts
    ([aws/main.py] 300-308, [azure/main.py] 194-202, [gcp/main.py] 141-149):
<<
    for listname, ipaddrs in iplists.items():
        thelist = IPList.update_or_create(name=listname, iplist=ipaddrs,
                                          append_lists=False)
        print(f"Operated on iplist {thelist}")
>>
    There is no [try] around the call. *)
Definition publish (server : smc) (d : @iplists A) : run unit :=
  for_each (Dict.items d)
    (fun '(listname, ipaddrs) =>
       bind (update_or_create server listname ipaddrs false)
            (fun _ => emit (PrintOperated listname))).

Definition is_login (e : event) : bool :=
  match e with
  | Login => true
  | _ => false
  end.

(** The [update_or_create] calls of a trace, in order, as
    (name, iplist, append_lists). *)
Fixpoint publish_calls (tr : list event) : list (string * list A * bool) :=
  match tr with
  | [] => []
  | UpdateOrCreate n l a :: r => (n, l, a) :: publish_calls r
  | _ :: r => publish_calls r
  end.

(** The aggregates printed by a trace, in order. *)
Fixpoint printed_aggregates (tr : list event) : list (@iplists A) :=
  match tr with
  | [] => []
  | PrintAggregate g :: r => g :: printed_aggregates r
  | _ :: r => printed_aggregates r
  end.

End Run.

Arguments event : clear implicits.
Arguments run : clear implicits.
Arguments smc : clear implicits.

Declare Scope run_scope.
Delimit Scope run_scope with run.
Notation "x <- m ;; k" := (bind m (fun x => k))
  (at level 61, m at next level, right associativity) : run_scope.
Notation "m ;; k" := (bind m (fun _ => k))
  (at level 61, right associativity) : run_scope.

Local Open Scope run_scope.

(** ** [aws/main.py] *)

Module Aws.
Section Aws.

Context {A : Type}.

(** One element of an instance's ['Tags'] list: a dict that may or may not
    hold ['Key'] and ['Value']. *)
Record raw_tag : Type := {
  Key : option string;
  Value : option string
}.

(** One instance of a reservation, as the EC2 API returns it. A network
    interface is the list of what [private_addr.get('PrivateIpAddress')]
    gives for each of its ['PrivateIpAddresses']. *)
Record raw_instance : Type := {
  Tags : list raw_tag;
  VpcId : option string;
  AvailabilityZone : option string;
  NetworkInterfaces : list (list A)
}.

(** A reservation is its ['Instances'] list. *)
Definition reservation : Type := list raw_instance.

(** The abbreviated dict built by [describe_instances] for one instance. *)
Record instance : Type := {
  name : string;
  vpc_id : option string;
  tags : list raw_tag;
  private_address : list A;
  placement : string
}.

(** The abbreviated dict built by [describe_vpcs] for one VPC. *)
Record vpc : Type := {
  vpc_name : string;
  vpc_vpc_id : option string
}.

Record config : Type := {
  page_size : nat;
  skip_vpc_discovery : bool;
  untagged_group : option string;
  report_only : bool
}.

(** The same command line with or without [--report_only]. *)
Definition set_report_only (b : bool) (cfg : config) : config :=
  {| page_size := page_size cfg;
     skip_vpc_discovery := skip_vpc_discovery cfg;
     untagged_group := untagged_group cfg;
     report_only := b |}.

(** One VPC as the EC2 API returns it. *)
Record raw_vpc : Type := {
  VpcTags : list raw_tag;
  RawVpcId : option string
}.

(** What the account holds: the VPCs that match the filter of
    [describe_vpcs] and the reservations that match the filters of
    [describe_instances]. *)
Record cloud : Type := {
  vpcs : list raw_vpc;
  reservations : list reservation
}.

(** What [pprint] shows in report mode. *)
Inductive printed : Type :=
| PVpcs (vpc_ids : list (list vpc))
| PBatch (batch : list instance).

(** [tag.get('Key') == 'Name'] *)
Definition is_name_tag (tag : raw_tag) : bool :=
  match Key tag with
  | Some k => String.eqb k "Name"
  | None => false
  end.

(** The body of the instance loop of [describe_instances], lines 144-166. *)
Definition normalize (i : raw_instance) : instance :=
  let instance_name :=
    fold_left (fun acc tag => if is_name_tag tag then Value tag else acc)
              (Tags i) None in
  let tags := filter (fun tag => negb (is_name_tag tag)) (Tags i) in
  {| name := if Py.truthy_opt instance_name
             then Py.get_or instance_name "" else "Unknown";
     vpc_id := VpcId i;
     tags := tags;
     private_address := concat (NetworkInterfaces i);
     placement := Py.get_or (AvailabilityZone i) "unknown" |}.

(** The loops over reservations and instances of [describe_instances]. *)
Definition normalize_all (rs : list reservation) : list instance :=
  flat_map (fun page => map normalize page) rs.

(** [describe_instances]. The paginator belongs to boto3; it is modelled by
    its contract: the resume token is the number of reservations already
    delivered, [MaxItems] caps the number of reservations of the full
    result, and ['NextToken'] is set when reservations remain. The source
    tests [if next_token:], so a token that is [0] is not passed on. *)
Definition describe_instances (rs : list reservation)
           (next_token : option nat) (max_items : nat)
  : list instance * option nat :=
  let start := match next_token with
               | Some (S t) => S t
               | _ => 0
               end in
  let full_result := firstn max_items (skipn start rs) in
  (normalize_all full_result,
   if Nat.ltb (start + max_items) (length rs) then Some (start + max_items) else None).

(** The [while next_token is not None] loop of [describe_instances_all];
    [None] when the fuel runs out before the loop ends. *)
Fixpoint describe_instances_rest (fuel : nat) (rs : list reservation)
         (page_size : nat) (next_token : nat) : option (list (list instance)) :=
  match fuel with
  | O => None
  | S fuel' =>
      let (result, next_token') :=
        describe_instances rs (Some next_token) page_size in
      match next_token' with
      | None => Some [result]
      | Some t =>
          option_map (cons result)
                     (describe_instances_rest fuel' rs page_size t)
      end
  end.

(** [describe_instances_all]: the list of the pages the generator yields. *)
Definition describe_instances_all (fuel : nat) (rs : list reservation)
           (page_size : nat) : option (list (list instance)) :=
  let (first_result, next_token) := describe_instances rs None page_size in
  match next_token with
  | None => Some [first_result]
  | Some t =>
      option_map (cons first_result)
                 (describe_instances_rest fuel rs page_size t)
  end.

(** Lines 281-283. *)
Definition group_name (tag : raw_tag) : string :=
  let key := Py.replace_spaces (Py.get_or (Key tag) "") in
  let value := Py.replace_spaces (Py.get_or (Value tag) "") in
  (key ++ "_" ++ value)%string.

(** Lines 287-290. *)
Definition fallback_name (cfg : config) (i : instance) : string :=
  if Py.truthy_opt (untagged_group cfg)
  then Py.get_or (untagged_group cfg) ""
  else ("untagged-aws-" ++ placement i)%string.

(** The body of [for instance in batch], lines 278-292. *)
Definition aggregate_instance (cfg : config) (d : @iplists A) (i : instance)
  : @iplists A :=
  if Py.truthy_list (tags i) then
    fold_left (fun d tag =>
                 setdefault_extend (group_name tag) (private_address i) d)
              (tags i) d
  else
    setdefault_extend (fallback_name cfg i) (private_address i) d.

(** Lines 274-292: [iplists] starts empty before the loop over the batches
    and is never re-initialised. *)
Definition aggregate (cfg : config) (batches : list (list instance))
  : @iplists A :=
  fold_left (fun d batch => fold_left (aggregate_instance cfg) batch d)
            batches Dict.empty.

(** The tag loop of [describe_vpcs], lines 73-78: it leaves at the first
    Name tag ([break]). *)
Fixpoint vpc_name_tag (tags : list raw_tag) : option string :=
  match tags with
  | [] => None
  | tag :: r => if is_name_tag tag then Value tag else vpc_name_tag r
  end.

(** The body of the loop over the VPCs of [describe_vpcs], lines 73-83. *)
Definition normalize_vpc (page : raw_vpc) : vpc :=
  let found := vpc_name_tag (VpcTags page) in
  {| vpc_name := if Py.truthy_opt found then Py.get_or found "" else "Unknown";
     vpc_vpc_id := RawVpcId page |}.

(** [describe_vpcs], lines 38-89, for the VPCs that match the filter. The
    paginator is modelled as in [describe_instances]: the resume token is the
    number of VPCs already delivered and [MaxItems] caps the number of VPCs
    of the full result. *)
Definition describe_vpcs (vpcs : list raw_vpc) (next_token : option nat)
           (max_items : nat) : list vpc * option nat :=
  let start := match next_token with
               | Some (S t) => S t
               | _ => 0
               end in
  let full_result := firstn max_items (skipn start vpcs) in
  (map normalize_vpc full_result,
   if Nat.ltb (start + max_items) (length vpcs)
   then Some (start + max_items) else None).

(** The [while next_token is not None] loop of [describe_vpc_all]; [None]
    when the fuel runs out before the loop ends. *)
Fixpoint describe_vpc_rest (fuel : nat) (vpcs : list raw_vpc)
         (page_size : nat) (next_token : nat) : option (list (list vpc)) :=
  match fuel with
  | O => None
  | S fuel' =>
      let (result, next_token') :=
        describe_vpcs vpcs (Some next_token) page_size in
      match next_token' with
      | None => Some [result]
      | Some t =>
          option_map (cons result) (describe_vpc_rest fuel' vpcs page_size t)
      end
  end.

(** [describe_vpc_all]: the list of the pages the generator yields. *)
Definition describe_vpc_all (fuel : nat) (vpcs : list raw_vpc)
           (page_size : nat) : option (list (list vpc)) :=
  let (first_result, next_token) := describe_vpcs vpcs None page_size in
  match next_token with
  | None => Some [first_result]
  | Some t =>
      option_map (cons first_result) (describe_vpc_rest fuel vpcs page_size t)
  end.

(** The script from line 262 on, given the pages of VPCs collected in
    [vpc_ids] and the pages that the generator [describe_instances_all]
    yields (it is run once more for the report). *)
Definition main_on (cfg : config) (server : smc A) (vpc_ids : list (list vpc))
           (batches : list (list instance)) : run printed A unit :=
  when (report_only cfg)
       (emit (PrintData (PVpcs vpc_ids)) ;;
        for_each batches (fun batch => emit (PrintData (PBatch batch)))) ;;
  when (negb (report_only cfg)) (session_login server) ;;
  let iplists := aggregate cfg batches in
  when (report_only cfg)
       (emit (PrintAggregate iplists) ;; sys_exit 0) ;;
  publish server iplists ;;
  sys_exit 0.

(** Lines 255-260: [vpc_ids] collects the pages of [describe_vpc_all],
    unless the discovery is skipped. *)
Definition discover_vpcs (fuel : nat) (cfg : config) (c : cloud)
  : option (list (list vpc)) :=
  if skip_vpc_discovery cfg then Some []
  else describe_vpc_all fuel (vpcs c) (page_size cfg).

(** The script from line 255 on; [None] when the fuel runs out in one of
    the two generators. *)
Definition main (fuel : nat) (cfg : config) (server : smc A) (c : cloud)
  : option (run printed A unit) :=
  match discover_vpcs fuel cfg c with
  | Some vpc_ids =>
      match describe_instances_all fuel (reservations c) (page_size cfg) with
      | Some batches => Some (main_on cfg server vpc_ids batches)
      | None => None
      end
  | None => None
  end.

(** Line 263: the list of states asked for on the command line. *)
Definition parse_ec2_states (arg : option string) : list string :=
  if Py.truthy_opt arg then Py.split "," (Py.get_or arg "") else [].

(** One element of the [Filters] argument of the paginator. *)
Record filter : Type := {
  Name : string;
  Values : list string
}.

(** The filters built by [describe_instances], lines 106-121. *)
Definition filters (name : option string) (ec2_states : list string)
  : list filter :=
  let filters :=
    if Py.truthy_opt name
    then [{| Name := "tag:Name"; Values := [Py.get_or name ""] |}]
    else [{| Name := "tag:Name"; Values := ["*"] |}] in
  if Py.truthy_list ec2_states
  then filters ++ [{| Name := "instance-state-name"; Values := ec2_states |}]
  else filters.

(** The names of the groups that one instance feeds, lines 279-290: one per
    tag, or the fallback name. *)
Definition group_names (cfg : config) (i : instance) : list string :=
  if Py.truthy_list (tags i) then map group_name (tags i)
  else [fallback_name cfg i].

End Aws.
End Aws.

(** ** [azure/main.py] *)

Module Azure.
Section Azure.

Context {A : Type}.

(** A network interface of a virtual machine: the interface name and the
    resource group cut out of the interface id, and the
    [private_ip_address] of each of its IP configurations as the network
    client returns them ([get_private_address]). *)
Record interface : Type := {
  if_name : string;
  r_group : string;
  ip_configurations : list A
}.

(** A virtual machine as the compute client lists it; [vm.tags] may be
    [None]. *)
Record raw_vm : Type := {
  vm_name : string;
  vm_vm_id : string;
  vm_tags : option (Dict.t string);
  network_interfaces : list interface
}.

(** The dict [vm_d] built by [get_virtual_machine_details]. *)
Record vm_d : Type := {
  name : string;
  vm_id : string;
  tags : Dict.t string;
  interface_ids : list (string * string);
  private_address : list A
}.

Record config : Type := {
  subscription : option string;
  report_only : bool
}.

(** The same command line with or without [--report_only]. *)
Definition set_report_only (b : bool) (cfg : config) : config :=
  {| subscription := subscription cfg; report_only := b |}.

(** What the credential can see: the subscriptions that the subscription
    client lists, and the virtual machines of a subscription; and the
    environment variables AZURE_CLIENT_ID and AZURE_TENANT_ID, [None] when
    unset. *)
Record cloud : Type := {
  listed_subscriptions : list string;
  virtual_machines_of : string -> list raw_vm;
  client_id : option string;
  tenant_id : option string
}.

(** [get_virtual_machine_details], lines 94-113. *)
Definition get_virtual_machine_details (vm : raw_vm) : vm_d :=
  {| name := vm_name vm;
     vm_id := vm_vm_id vm;
     tags := match vm_tags vm with
             | Some (x :: r) => x :: r
             | _ => Dict.empty
             end;
     interface_ids :=
       map (fun i => (if_name i, r_group i)) (network_interfaces vm);
     private_address :=
       flat_map ip_configurations (network_interfaces vm) |}.

(** Line 191. *)
Definition group_name (tag _value : string) : string :=
  if Py.truthy_str _value then (tag ++ "_" ++ _value)%string else tag.

(** The body of [for value in values], lines 188-192. There is no [else]:
    a machine without tags is skipped. *)
Definition aggregate_vm (d : @iplists A) (value : vm_d) : @iplists A :=
  if Py.truthy_list (tags value) then
    fold_left (fun d '(tag, _value) =>
                 setdefault_extend (group_name tag _value)
                                   (private_address value) d)
              (Dict.items (tags value)) d
  else d.

(** Lines 183-192 without the progress line. *)
Definition aggregate (result : Dict.t (list vm_d)) : @iplists A :=
  fold_left (fun d '(_, values) => fold_left aggregate_vm values d)
            (Dict.items result) Dict.empty.

(** Lines 160-174. *)
Definition collect (c : cloud) (subscriptions : list string)
  : Dict.t (list vm_d) :=
  fold_left (fun result subscription_id =>
               Dict.set subscription_id
                        (map get_virtual_machine_details
                             (virtual_machines_of c subscription_id))
                        result)
            subscriptions Dict.empty.

(** The body of [for subscription, values in result.items()], lines
    186-192. *)
Definition aggregate_subscription (d : @iplists A)
           (entry : string * list vm_d)
  : run (Dict.t (list vm_d)) A (@iplists A) :=
  let (subscription, values) := entry in
  emit (PrintText ("Operating on subscription: " ++ subscription)%string) ;;
  ret (fold_left aggregate_vm values d).

(** Lines 142-152: the subscription of the command line, or else those
    that the subscription client lists. *)
Definition scanned_subscriptions (cfg : config) (c : cloud) : list string :=
  let subscriptions :=
    if Py.truthy_opt (subscription cfg)
    then [Py.get_or (subscription cfg) ""] else [] in
  if Py.truthy_list subscriptions then subscriptions
  else listed_subscriptions c.

(** The message of line 155. *)
Definition no_subscription_message (c : cloud) : string :=
  ("No subscriptions were found for client id: " ++ Py.str_opt (client_id c)
     ++ " and tenant ID: " ++ Py.str_opt (tenant_id c))%string.

(** The script from line 142 on. *)
Definition main (cfg : config) (server : smc A) (c : cloud)
  : run (Dict.t (list vm_d)) A unit :=
  let subscriptions := scanned_subscriptions cfg c in
  when (negb (Py.truthy_list subscriptions))
       (emit (LogError (no_subscription_message c)) ;; sys_exit 1) ;;
  let result := collect c subscriptions in
  when (report_only cfg) (emit (PrintData result) ;; sys_exit 0) ;;
  session_login server ;;
  iplists <- fold_run aggregate_subscription (Dict.items result)
                      Dict.empty ;;
  publish server iplists ;;
  sys_exit 0.

(** Lines 109-110: the interface id is cut at the slashes, the interface
    name is the last piece and the resource group the piece of index 4.
    [None] stands for the [IndexError] of an id with fewer than five
    pieces. *)
Definition split_interface_id (id : string) : option (string * string) :=
  let _interface := Py.split "/" id in
  match nth_error _interface 4 with
  | Some r_group => Some (last _interface "", r_group)
  | None => None
  end.

(** The names of the groups that one machine feeds, line 191. *)
Definition group_names (value : vm_d) : list string :=
  map (fun t => group_name (fst t) (snd t)) (Dict.items (tags value)).

(** The machines of all subscriptions, in the order of the scan. *)
Definition machines_of (result : Dict.t (list vm_d)) : list vm_d :=
  flat_map snd (Dict.items result).

End Azure.
End Azure.

(** ** [gcp/main.py] *)

Module Gcp.
Section Gcp.

Context {A : Type}.

(** A [compute_v1.Instance]: its labels and the [network_i_p] of each of
    its network interfaces. *)
Record raw_instance : Type := {
  labels : Dict.t string;
  network_interfaces : list A
}.

(** The dict [hostdata] built by [list_all_instances]. It is created with
    the keys ['private_addresses'] and ['labels']; the addresses are then
    collected under another key, ['private_address'], which exists only
    once an interface has been seen. *)
Record host : Type := {
  private_addresses : list A;
  host_labels : Dict.t string;
  private_address : option (list A)
}.

(** The value of the variable [instances]: the zone-keyed dict returned by
    [list_all_instances], or the pager returned by [list_instances]. *)
Inductive inventory : Type :=
| ZoneMapping (all_instances : Dict.t (list host))
| InstancePager (instance_list : list raw_instance).

Record config : Type := {
  zone : option string;
  report_only : bool
}.

(** The same command line with or without [--report_only]. *)
Definition set_report_only (b : bool) (cfg : config) : config :=
  {| zone := zone cfg; report_only := b |}.

(** What the project holds: the instances of one zone, and the
    (zone, instances) pairs that the aggregated listing iterates over. *)
Record cloud : Type := {
  zone_listing : string -> list raw_instance;
  aggregated_list : list (string * list raw_instance)
}.

(** Lines 75-78. *)
Definition hostdata (i : raw_instance) : host :=
  {| private_addresses := [];
     host_labels := labels i;
     private_address :=
       fold_left (fun acc net =>
                    match acc with
                    | None => Some [net]
                    | Some l => Some (l ++ [net])
                    end)
                 (network_interfaces i) None |}.

(** [list_instances] *)
Definition list_instances (c : cloud) (zone : string) : inventory :=
  InstancePager (zone_listing c zone).

(** [list_all_instances], lines 67-80. *)
Definition list_all_instances (c : cloud) : inventory :=
  ZoneMapping
    (fold_left
       (fun all_instances '(zone, instances) =>
          if Py.truthy_list instances then
            fold_left (fun d i =>
                         Dict.update zone (fun l => l ++ [hostdata i])
                                     (Dict.setdefault zone [] d))
                      instances (Dict.setdefault zone [] all_instances)
          else all_instances)
       (aggregated_list c) Dict.empty).

(** Line 132. *)
Definition group_name (key value : string) : string :=
  if Py.truthy_str value then (key ++ "_" ++ value)%string else key.

(** Line 133: [setdefault] runs first, then [extend] is applied to what
    [host.get('private_address')] returns, which is [None] when the key is
    missing. *)
Definition add_label {I : Type} (h : host) (d : @iplists A)
           (label : string * string) : run I A (@iplists A) :=
  let (key, value) := label in
  let name := group_name key value in
  let d' := Dict.setdefault name [] d in
  match private_address h with
  | Some addrs => ret (Dict.update name (fun l => l ++ addrs) d')
  | None => raise Py.TypeError
  end.

(** The body of [for host in instance], lines 131-133. *)
Definition aggregate_host {I : Type} (d : @iplists A) (h : host)
  : run I A (@iplists A) :=
  fold_run (add_label h) (Dict.items (host_labels h)) d.

(** Lines 125-133. [instances.items()] needs the zone-keyed dict; the pager
    has no such method. *)
Definition aggregate {I : Type} (instances : inventory)
  : run I A (@iplists A) :=
  match instances with
  | InstancePager _ => raise Py.TypeError
  | ZoneMapping all_instances =>
      fold_run (fun d '(_, instance) => fold_run aggregate_host instance d)
               (Dict.items all_instances) Dict.empty
  end.

(** Lines 113-116. *)
Definition inventory_of (cfg : config) (c : cloud) : inventory :=
  if Py.truthy_opt (zone cfg)
  then list_instances c (Py.get_or (zone cfg) "")
  else list_all_instances c.

(** The script from line 113 on. *)
Definition main (cfg : config) (server : smc A) (c : cloud)
  : run inventory A unit :=
  let instances := inventory_of cfg c in
  when (report_only cfg) (emit (PrintData instances)) ;;
  when (negb (report_only cfg)) (session_login server) ;;
  iplists <- aggregate instances ;;
  when (report_only cfg) (emit (PrintAggregate iplists) ;; sys_exit 0) ;;
  publish server iplists ;;
  sys_exit 0.

(** The instances that the aggregated listing gives for one zone, over all
    the (zone, instances) pairs it iterates over. *)
Definition instances_in_zone (pages : list (string * list raw_instance))
           (zone : string) : list raw_instance :=
  flat_map (fun e => if String.eqb zone (fst e) then snd e else []) pages.

(** The names of the groups that one host feeds, line 132. *)
Definition group_names (h : host) : list string :=
  map (fun l => group_name (fst l) (snd l)) (Dict.items (host_labels h)).

(** Can line 133 run for every label of the host? It cannot when the host
    has a label and lacks the key ['private_address']. *)
Definition host_ready (h : host) : bool :=
  match host_labels h, private_address h with
  | _ :: _, None => false
  | _, _ => true
  end.

(** The hosts of all zones, in the order of the scan. *)
Definition hosts_of (all_instances : Dict.t (list host)) : list host :=
  flat_map snd (Dict.items all_instances).

End Gcp.
End Gcp.

(** ** Auxiliary notions used by the statements *)

Section Notions.

Context {A : Type}.

(** The loop [for n in names: iplists.setdefault(n, []).extend(addrs)], the
    common shape of the tag loops once the group names are computed. *)
Definition extend_all (names : list string) (addrs : list A)
           (d : @iplists A) : @iplists A :=
  fold_left (fun d n => setdefault_extend n addrs d) names d.

(** The call that the publish loop makes for one entry of [iplists]. *)
Definition call_of (entry : string * list A) : string * list A * bool :=
  (fst entry, snd entry, false).

(** A server on which the login and every update succeed. *)
Definition accepts_all (server : smc A) : Prop :=
  login_ok server = true /\ forall n l, update_ok server n l = true.

(** A server on which everything succeeds. *)
Definition obliging : smc A :=
  {| login_ok := true; update_ok := fun _ _ => true |}.

(** A server that refuses the update of one named list. *)
Definition refusing (bad : string) : smc A :=
  {| login_ok := true; update_ok := fun n _ => negb (String.eqb n bad) |}.

(** Modelled from the spec: the update-or-create contract of the external
    management API, whose client library [smc] is not in this repository.
    The named address lists of the server are a dictionary; a successful
    call with the replace-not-append flag ([append_lists=False]) makes the
    list hold exactly the members sent, a call with [append_lists=True]
    adds the members sent to those already there. *)
Definition remote_apply (store : Dict.t (list A))
           (call : string * list A * bool) : Dict.t (list A) :=
  let '(name, iplist, append_lists) := call in
  if append_lists
  then Dict.set name (Py.get_or (Dict.get name store) [] ++ iplist) store
  else Dict.set name iplist store.

(** The named lists of the server after a sequence of successful calls. *)
Definition remote_after (calls : list (string * list A * bool))
           (store : Dict.t (list A)) : Dict.t (list A) :=
  fold_left remote_apply calls store.

(** What one instance does to the aggregate when its tags name the groups
    [names] and its address list is [addrs]: every group receives the whole
    list once for each tag that names it and is otherwise left alone; when
    the names are pairwise distinct each named group receives the list
    exactly once, and when they are new as well the aggregate grows by one
    entry per tag, each holding the whole list. *)
Definition fans_out (names : list string) (addrs : list A)
           (d d' : @iplists A) : Prop :=
  (forall g, addresses_of g d' =
             addresses_of g d ++
             concat (repeat addrs (count_occ string_dec names g))) /\
  (forall g, ~ In g names -> Dict.get g d' = Dict.get g d) /\
  (forall g, In g (Dict.keys d') <-> In g names \/ In g (Dict.keys d)) /\
  (NoDup names ->
   (forall g, In g names -> addresses_of g d' = addresses_of g d ++ addrs) /\
   ((forall g, In g names -> ~ In g (Dict.keys d)) ->
    d' = d ++ map (fun n => (n, addrs)) names)).

End Notions.

(** The addresses that an instance with the group names [names] and the
    address list [addrs] delivers to the group [g]: the whole list once for
    each of its names that is [g]. *)
Definition deliveries {A : Type} (g : string) (names : list string)
           (addrs : list A) : list A :=
  concat (repeat addrs (count_occ string_dec names g)).

(** The events of a pass of the publish loop whose call succeeds. *)
Definition published {I A : Type} (entry : string * list A)
  : list (event I A) :=
  [UpdateOrCreate (fst entry) (snd entry) false; PrintOperated (fst entry)].

(** ** Sample inventories *)

Module Sample.

(** The two machines of the sample output quoted at the end of
    [azure/main.py]. *)
Definition azure_machine : Azure.vm_d (A:=string) :=
  {| Azure.name := "machine";
     Azure.vm_id := "780d7c49-f8ac-4bd0-bd19-36b44005f97c";
     Azure.tags := [];
     Azure.interface_ids := [("machine37_z1", "Hosts_Resources")];
     Azure.private_address := ["10.0.0.4"] |}.

Definition azure_windows : Azure.vm_d (A:=string) :=
  {| Azure.name := "windows";
     Azure.vm_id := "686b60a0-a087-4bb5-9d45-ce3ec17f5da1";
     Azure.tags := [("some_host_type", "");
                    ("some_other_tag_with_value", "value_for_named_tag")];
     Azure.interface_ids := [("windows152_z1", "Hosts_Resources")];
     Azure.private_address := ["10.1.0.4"] |}.

Definition azure_result : Dict.t (list (Azure.vm_d (A:=string))) :=
  [("xxxxxxxxx-xxxx-xxxx-xxxx-xxxxxxxxxxxxx", [azure_machine; azure_windows])].

(** A machine with two tags whose names coincide. *)
Definition azure_two_tags_one_name : Azure.vm_d (A:=string) :=
  {| Azure.name := "web";
     Azure.vm_id := "0";
     Azure.tags := [("app", "web_1"); ("app_web", "1")];
     Azure.interface_ids := [("web_z1", "Hosts_Resources")];
     Azure.private_address := ["10.0.0.1"] |}.

(** The two instances of the scenario of the specification. *)
Definition aws_vm1 : Aws.instance (A:=string) :=
  {| Aws.name := "vm1";
     Aws.vpc_id := None;
     Aws.tags := [{| Aws.Key := Some "env"; Aws.Value := Some "prod" |}];
     Aws.private_address := ["10.0.0.1"];
     Aws.placement := "us-east-1a" |}.

Definition aws_vm2 : Aws.instance (A:=string) :=
  {| Aws.name := "vm2";
     Aws.vpc_id := None;
     Aws.tags := [];
     Aws.private_address := ["10.0.0.2"];
     Aws.placement := "us-east-1a" |}.

(** [vm1] with a second tag. *)
Definition aws_vm1_two_tags : Aws.instance (A:=string) :=
  {| Aws.name := "vm1";
     Aws.vpc_id := None;
     Aws.tags := [{| Aws.Key := Some "env"; Aws.Value := Some "prod" |};
                  {| Aws.Key := Some "team"; Aws.Value := Some "infra" |}];
     Aws.private_address := ["10.0.0.1"];
     Aws.placement := "us-east-1a" |}.

(** An instance with two tags that differ only by a space. *)
Definition aws_two_tags_one_name : Aws.instance (A:=string) :=
  {| Aws.name := "db";
     Aws.vpc_id := None;
     Aws.tags := [{| Aws.Key := Some "cost center"; Aws.Value := Some "a" |};
                  {| Aws.Key := Some "cost_center"; Aws.Value := Some "a" |}];
     Aws.private_address := ["10.0.0.9"];
     Aws.placement := "us-east-1a" |}.

(** Three reservations of one instance each. *)
Definition aws_raw (name value address : string)
  : Aws.raw_instance (A:=string) :=
  {| Aws.Tags := [{| Aws.Key := Some "Name"; Aws.Value := Some name |};
                  {| Aws.Key := Some "env"; Aws.Value := Some value |}];
     Aws.VpcId := Some "vpc-1";
     Aws.AvailabilityZone := Some "us-east-1a";
     Aws.NetworkInterfaces := [[address]] |}.

Definition aws_cloud : Aws.cloud (A:=string) :=
  {| Aws.vpcs := [];
     Aws.reservations := [[aws_raw "vm1" "prod" "10.0.0.1"];
                          [aws_raw "vm2" "prod" "10.0.0.2"];
                          [aws_raw "vm3" "test" "10.0.0.3"]] |}.

Definition aws_config (report : bool) : Aws.config :=
  {| Aws.page_size := 100;
     Aws.skip_vpc_discovery := false;
     Aws.untagged_group := None;
     Aws.report_only := report |}.

(** A labelled GCP instance with one interface, and one with none. *)
Definition gcp_bound : Gcp.raw_instance (A:=string) :=
  {| Gcp.labels := [("env", "prod")];
     Gcp.network_interfaces := ["10.128.0.2"] |}.

Definition gcp_unbound : Gcp.raw_instance (A:=string) :=
  {| Gcp.labels := [("env", "prod")];
     Gcp.network_interfaces := [] |}.

Definition gcp_unlabelled : Gcp.raw_instance (A:=string) :=
  {| Gcp.labels := [];
     Gcp.network_interfaces := ["10.128.0.3"] |}.

Definition gcp_cloud (l : list (Gcp.raw_instance (A:=string)))
  : Gcp.cloud (A:=string) :=
  {| Gcp.zone_listing := fun _ => l;
     Gcp.aggregated_list := [("zones/us-west3-b", l)] |}.

(** A VPC whose first Name tag is empty and whose second is not, and a VPC
    without Name tag. *)
Definition vpc_two_names : Aws.raw_vpc :=
  {| Aws.VpcTags := [{| Aws.Key := Some "team"; Aws.Value := Some "infra" |};
                     {| Aws.Key := Some "Name"; Aws.Value := Some "" |};
                     {| Aws.Key := Some "Name"; Aws.Value := Some "main" |}];
     Aws.RawVpcId := Some "vpc-1" |}.

Definition vpc_unnamed : Aws.raw_vpc :=
  {| Aws.VpcTags := [{| Aws.Key := Some "team"; Aws.Value := Some "infra" |}];
     Aws.RawVpcId := Some "vpc-2" |}.

(** An instance without Name tag and without placement, and one whose only
    tag is the Name tag. *)
Definition aws_raw_unnamed : Aws.raw_instance (A:=string) :=
  {| Aws.Tags := [{| Aws.Key := Some "env"; Aws.Value := Some "prod" |}];
     Aws.VpcId := None;
     Aws.AvailabilityZone := None;
     Aws.NetworkInterfaces := [["10.0.0.1"]] |}.

Definition aws_raw_name_only : Aws.raw_instance (A:=string) :=
  {| Aws.Tags := [{| Aws.Key := Some "Name"; Aws.Value := Some "bastion" |}];
     Aws.VpcId := None;
     Aws.AvailabilityZone := None;
     Aws.NetworkInterfaces := [["10.0.0.8"]; ["10.0.1.8"]] |}.

(** The tagged machine of the sample of [azure/main.py], as the compute
    client lists it, and an Azure environment in which every subscription
    holds the same machines. *)
Definition azure_raw_windows : Azure.raw_vm (A:=string) :=
  {| Azure.vm_name := "windows";
     Azure.vm_vm_id := "686b60a0-a087-4bb5-9d45-ce3ec17f5da1";
     Azure.vm_tags := Some [("some_host_type", "");
                            ("some_other_tag_with_value",
                             "value_for_named_tag")];
     Azure.network_interfaces :=
       [{| Azure.if_name := "windows152_z1";
           Azure.r_group := "Hosts_Resources";
           Azure.ip_configurations := ["10.1.0.4"] |}] |}.

Definition azure_cloud (listed : list string)
           (machines : list (Azure.raw_vm (A:=string)))
  : Azure.cloud (A:=string) :=
  {| Azure.listed_subscriptions := listed;
     Azure.virtual_machines_of := fun _ => machines;
     Azure.client_id := None;
     Azure.tenant_id := None |}.

(** A machine with a tag keyed Name beside another tag. *)
Definition azure_named : Azure.vm_d (A:=string) :=
  {| Azure.name := "web";
     Azure.vm_id := "1";
     Azure.tags := [("Name", "web"); ("env", "prod")];
     Azure.interface_ids := [("web_z1", "Hosts_Resources")];
     Azure.private_address := ["10.0.0.6"] |}.

End Sample.

(** * Properties *)

(** ** Dictionaries *)

Section DictFacts.

Context {V : Type}.
Implicit Types (d : Dict.t V) (k : string).

Lemma get_app k d d' :
  Dict.get k (d ++ d') =
  match Dict.get k d with Some v => Some v | None => Dict.get k d' end.
Proof.
  induction d as [|[k' v] r IH]; simpl; [reflexivity|].
  destruct (String.eqb k k'); [reflexivity | exact IH].
Qed.

Lemma get_update_same k f d :
  Dict.get k (Dict.update k f d) = option_map f (Dict.get k d).
Proof.
  induction d as [|[k' v] r IH]; simpl; [reflexivity|].
  destruct (String.eqb k k') eqn:E; simpl; rewrite E; [reflexivity | exact IH].
Qed.

Lemma get_update_other k k' f d :
  k <> k' -> Dict.get k' (Dict.update k f d) = Dict.get k' d.
Proof.
  intros Hne. induction d as [|[k0 v] r IH]; simpl; [reflexivity|].
  destruct (String.eqb k k0) eqn:E; simpl.
  - apply String.eqb_eq in E. subst k0.
    destruct (String.eqb k' k) eqn:E'; [|reflexivity].
    apply String.eqb_eq in E'. congruence.
  - destruct (String.eqb k' k0); [reflexivity | exact IH].
Qed.

Lemma keys_update k f d : Dict.keys (Dict.update k f d) = Dict.keys d.
Proof.
  induction d as [|[k' v] r IH]; simpl; [reflexivity|].
  destruct (String.eqb k k'); simpl; [reflexivity | now rewrite IH].
Qed.

Lemma get_none_keys k d : Dict.get k d = None <-> ~ In k (Dict.keys d).
Proof.
  induction d as [|[k' v] r IH]; simpl; [tauto|].
  destruct (String.eqb k k') eqn:E.
  - apply String.eqb_eq in E. subst. split; [discriminate | tauto].
  - apply String.eqb_neq in E. rewrite IH. split.
    + intros H [H'|H']; [congruence | tauto].
    + tauto.
Qed.

Lemma mem_keys k d : Dict.mem k d = true <-> In k (Dict.keys d).
Proof.
  unfold Dict.mem. destruct (Dict.get k d) eqn:E.
  - split; [intros _ | reflexivity].
    destruct (in_dec string_dec k (Dict.keys d)) as [H|H]; [exact H|].
    apply get_none_keys in H. congruence.
  - split; [discriminate|]. intros H. apply get_none_keys in E. tauto.
Qed.

Lemma get_set_same k v d : Dict.get k (Dict.set k v d) = Some v.
Proof.
  unfold Dict.set, Dict.mem. destruct (Dict.get k d) eqn:E.
  - rewrite get_update_same, E. reflexivity.
  - rewrite get_app, E. simpl. now rewrite String.eqb_refl.
Qed.

Lemma get_set_other k k' v d :
  k <> k' -> Dict.get k' (Dict.set k v d) = Dict.get k' d.
Proof.
  intros Hne. unfold Dict.set. destruct (Dict.mem k d).
  - now apply get_update_other.
  - rewrite get_app. destruct (Dict.get k' d); [reflexivity|]. simpl.
    destruct (String.eqb k' k) eqn:E; [|reflexivity].
    apply String.eqb_eq in E. congruence.
Qed.

End DictFacts.

(** ** [setdefault(...).extend(...)] on the aggregate *)

Section AggregateFacts.

Context {A : Type}.
Implicit Types (d : @iplists A) (addrs : list A) (n g : string).

Lemma addresses_setdefault_extend_same n addrs d :
  addresses_of n (setdefault_extend n addrs d) = addresses_of n d ++ addrs.
Proof.
  unfold addresses_of, setdefault_extend, Dict.setdefault, Dict.mem.
  rewrite get_update_same.
  destruct (Dict.get n d) eqn:E; simpl.
  - rewrite E. reflexivity.
  - rewrite get_app, E. simpl. rewrite String.eqb_refl. reflexivity.
Qed.

Lemma get_setdefault_extend_other n g addrs d :
  n <> g -> Dict.get g (setdefault_extend n addrs d) = Dict.get g d.
Proof.
  intros Hne. unfold setdefault_extend, Dict.setdefault.
  rewrite get_update_other by exact Hne.
  destruct (Dict.mem n d); [reflexivity|].
  rewrite get_app. destruct (Dict.get g d); [reflexivity|]. simpl.
  destruct (String.eqb g n) eqn:E; [|reflexivity].
  apply String.eqb_eq in E. congruence.
Qed.

Lemma addresses_setdefault_extend_other n g addrs d :
  n <> g -> addresses_of g (setdefault_extend n addrs d) = addresses_of g d.
Proof.
  intros Hne. unfold addresses_of.
  now rewrite get_setdefault_extend_other.
Qed.

Lemma keys_setdefault_extend n addrs d :
  Dict.keys (setdefault_extend n addrs d) =
  if Dict.mem n d then Dict.keys d else Dict.keys d ++ [n].
Proof.
  unfold setdefault_extend, Dict.setdefault. rewrite keys_update.
  destruct (Dict.mem n d); [reflexivity|].
  unfold Dict.keys. now rewrite map_app.
Qed.

Lemma in_keys_setdefault_extend n g addrs d :
  In g (Dict.keys (setdefault_extend n addrs d)) <->
  g = n \/ In g (Dict.keys d).
Proof.
  rewrite keys_setdefault_extend. destruct (Dict.mem n d) eqn:E.
  - apply mem_keys in E. split; [tauto|]. intros [->|H]; assumption.
  - rewrite in_app_iff. simpl. split; intros H; intuition congruence.
Qed.

Lemma nodup_setdefault_extend n addrs d :
  NoDup (Dict.keys d) -> NoDup (Dict.keys (setdefault_extend n addrs d)).
Proof.
  intros Hnd. rewrite keys_setdefault_extend.
  destruct (Dict.mem n d) eqn:E; [exact Hnd|].
  apply NoDup_app.
  - exact Hnd.
  - constructor; [simpl; tauto | constructor].
  - intros x Hx [<-|[]]. apply mem_keys in Hx. congruence.
Qed.

(** With no address to add, the addresses of every group stay as they
    are (a group that did not exist is created empty). *)
Lemma addresses_setdefault_extend_nil n g d :
  addresses_of g (setdefault_extend n [] d) = addresses_of g d.
Proof.
  destruct (string_dec n g) as [->|Hne].
  - rewrite addresses_setdefault_extend_same. apply app_nil_r.
  - now apply addresses_setdefault_extend_other.
Qed.

(** *** The tag loop, once the names are known *)

Lemma addresses_extend_all names addrs g d :
  addresses_of g (extend_all names addrs d) =
  addresses_of g d ++ concat (repeat addrs (count_occ string_dec names g)).
Proof.
  revert d. induction names as [|n ns IH]; intros d; simpl.
  - now rewrite app_nil_r.
  - unfold extend_all in *. simpl. rewrite IH.
    destruct (string_dec n g) as [->|Hne].
    + rewrite addresses_setdefault_extend_same. simpl.
      now rewrite <- app_assoc.
    + now rewrite addresses_setdefault_extend_other.
Qed.

Lemma in_keys_extend_all names addrs g d :
  In g (Dict.keys (extend_all names addrs d)) <->
  In g names \/ In g (Dict.keys d).
Proof.
  revert d. induction names as [|n ns IH]; intros d; simpl.
  - tauto.
  - unfold extend_all in *. simpl. rewrite IH, in_keys_setdefault_extend.
    split; intros H; intuition congruence.
Qed.

Lemma nodup_extend_all names addrs d :
  NoDup (Dict.keys d) -> NoDup (Dict.keys (extend_all names addrs d)).
Proof.
  revert d. induction names as [|n ns IH]; intros d Hnd; simpl.
  - exact Hnd.
  - unfold extend_all in *. simpl. apply IH.
    now apply nodup_setdefault_extend.
Qed.

Lemma get_extend_all_other names addrs g d :
  ~ In g names -> Dict.get g (extend_all names addrs d) = Dict.get g d.
Proof.
  revert d. induction names as [|n ns IH]; intros d Hnin; simpl.
  - reflexivity.
  - unfold extend_all in *. simpl. rewrite IH by (simpl in Hnin; tauto).
    apply get_setdefault_extend_other. simpl in Hnin. tauto.
Qed.

Lemma extend_all_map {X : Type} (f : X -> string) (l : list X) addrs d :
  fold_left (fun d x => setdefault_extend (f x) addrs d) l d =
  extend_all (map f l) addrs d.
Proof.
  revert d. induction l as [|x r IH]; intros d; simpl; [reflexivity|].
  rewrite IH. reflexivity.
Qed.

End AggregateFacts.

(** ** The run monad *)

Section RunFacts.

Context {I A : Type}.

Lemma bind_ret_l {X Y : Type} (x : X) (k : X -> run I A Y) :
  bind (ret x) k = k x.
Proof. unfold bind, ret. destruct (k x). reflexivity. Qed.

Lemma bind_emit {Y : Type} (e : event I A) (k : unit -> run I A Y) :
  bind (emit e) k = (e :: trace (k tt), outcome (k tt)).
Proof. unfold bind, emit, trace, outcome. destruct (k tt). reflexivity. Qed.

Lemma bind_ok {X Y : Type} (tr : list (event I A)) (x : X)
      (k : X -> run I A Y) :
  bind (tr, Ok x) k = (tr ++ trace (k x), outcome (k x)).
Proof. unfold bind, trace, outcome. destruct (k x). reflexivity. Qed.

Lemma bind_assoc {X Y W : Type} (m : run I A X) (k : X -> run I A Y)
      (k' : Y -> run I A W) :
  bind (bind m k) k' = bind m (fun x => bind (k x) k').
Proof.
  destruct m as [tr [x|e|c]]; simpl; try reflexivity.
  destruct (k x) as [tr1 [y|e|c]]; simpl; try reflexivity.
  destruct (k' y) as [tr2 o]. now rewrite app_assoc.
Qed.

End RunFacts.

(** ** The publish loop *)

Section PublishFacts.

Context {I A : Type}.
Implicit Types (server : smc A) (d : @iplists A) (tr : list (event I A)).

Lemma publish_calls_app tr tr' :
  publish_calls (tr ++ tr') = publish_calls tr ++ publish_calls tr'.
Proof.
  induction tr as [|e r IH]; simpl; [reflexivity|].
  destruct e; simpl; now rewrite ?IH.
Qed.


Lemma publish_calls_published (l : list (string * list A)) :
  publish_calls (flat_map (published (I:=I)) l) = map call_of l.
Proof.
  induction l as [|[n a] r IH]; simpl; [reflexivity|]. now rewrite IH.
Qed.

(** One pass of the loop: the call is issued; if it succeeds the loop goes
    on, if it raises nothing catches the exception. *)
Lemma publish_cons server n l d :
  publish (I:=I) server ((n, l) :: d) =
  if update_ok server n l
  then (published (n, l) ++ trace (publish (I:=I) server d),
        outcome (publish (I:=I) server d))
  else ([UpdateOrCreate n l false], Raise unit Py.ApiError).
Proof.
  unfold publish, Dict.items. simpl.
  unfold update_or_create, bind, emit, ret, raise. simpl.
  destruct (update_ok server n l); simpl; [|reflexivity].
  destruct (for_each d _) as [tr o]. reflexivity.
Qed.

(** When every call succeeds, every entry is published, in order. *)
Lemma publish_all_ok server d :
  (forall n l, In (n, l) d -> update_ok server n l = true) ->
  publish (I:=I) server d = (flat_map published d, Ok tt).
Proof.
  induction d as [|[n l] r IH]; intros Hok; [reflexivity|].
  rewrite publish_cons, Hok by (left; reflexivity).
  rewrite IH by (intros; apply Hok; right; assumption). reflexivity.
Qed.

(** The first call that fails ends the loop and the run. *)
Lemma publish_stops_at_failure server d1 n l d2 :
  (forall n' l', In (n', l') d1 -> update_ok server n' l' = true) ->
  update_ok server n l = false ->
  publish (I:=I) server (d1 ++ (n, l) :: d2) =
  (flat_map published d1 ++ [UpdateOrCreate n l false],
   Raise unit Py.ApiError).
Proof.
  induction d1 as [|[n1 l1] r IH]; intros Hok Hbad; simpl.
  - rewrite publish_cons, Hbad. reflexivity.
  - rewrite publish_cons, Hok by (left; reflexivity).
    rewrite IH by (auto; intros; apply Hok; right; assumption).
    reflexivity.
Qed.

(** Whatever the server answers, the calls issued are the calls for an
    initial segment of the aggregate, each with the whole list of the
    group and [append_lists=False]. *)
Lemma publish_calls_prefix server d :
  exists rest,
    map call_of d = publish_calls (trace (publish (I:=I) server d)) ++ rest.
Proof.
  induction d as [|[n l] r [rest IH]].
  - exists []. reflexivity.
  - rewrite publish_cons. destruct (update_ok server n l).
    + exists rest. unfold trace in *. simpl. now rewrite IH.
    + exists (map call_of r). reflexivity.
Qed.

Lemma publish_no_login_no_print server d :
  existsb is_login (trace (publish (I:=I) server d)) = false /\
  printed_aggregates (trace (publish (I:=I) server d)) = [].
Proof.
  induction d as [|[n l] r [IH1 IH2]]; [split; reflexivity|].
  rewrite publish_cons. destruct (update_ok server n l); simpl; auto.
Qed.

(** The loop never ends in [sys.exit]. *)
Lemma publish_outcome server d :
  outcome (publish (I:=I) server d) = Ok tt \/
  outcome (publish (I:=I) server d) = Raise unit Py.ApiError.
Proof.
  induction d as [|[n l] r IH]; [left; reflexivity|].
  rewrite publish_cons. destruct (update_ok server n l); simpl; auto.
Qed.

End PublishFacts.

(** ** Group names *)

Section StringFacts.

Lemma replace_spaces_length s :
  String.length (Py.replace_spaces s) = String.length s.
Proof. induction s as [|c r IH]; simpl; congruence. Qed.

Lemma replace_spaces_get n s :
  String.get n (Py.replace_spaces s) =
  option_map (fun c => if Ascii.eqb c Py.space then Py.underscore else c)
             (String.get n s).
Proof.
  revert n. induction s as [|c r IH]; intros n; simpl; [reflexivity|].
  destruct n; simpl; [reflexivity | apply IH].
Qed.

Lemma replace_spaces_no_space s :
  Py.contains Py.space (Py.replace_spaces s) = false.
Proof.
  induction s as [|c r IH]; simpl; [reflexivity|]. rewrite IH.
  destruct (Ascii.eqb c Py.space) eqn:E; [reflexivity|].
  rewrite E. reflexivity.
Qed.

End StringFacts.

(** C8. In the AWS script the group name is built from the tag key and the
    tag value after every space of each has been replaced with an underscore
    (same length, every character kept except that a space becomes an
    underscore, no space left); in the Azure and GCP scripts the key and the
    value enter the name as they are, spaces included. *)
Theorem aws_replaces_spaces_azure_gcp_do_not :
  (forall tag : Aws.raw_tag,
      Aws.group_name tag =
      (Py.replace_spaces (Py.get_or (Aws.Key tag) "") ++ "_" ++
       Py.replace_spaces (Py.get_or (Aws.Value tag) ""))%string) /\
  (forall s,
      String.length (Py.replace_spaces s) = String.length s /\
      (forall n, String.get n (Py.replace_spaces s) =
                 option_map (fun c => if Ascii.eqb c " " then "_"%char else c)
                            (String.get n s)) /\
      Py.contains " " (Py.replace_spaces s) = false) /\
  (forall tag c v,
      Azure.group_name tag (String c v) = (tag ++ "_" ++ String c v)%string) /\
  (forall key c v,
      Gcp.group_name key (String c v) = (key ++ "_" ++ String c v)%string) /\
  Aws.group_name {| Aws.Key := Some "cost center";
                    Aws.Value := Some "north east" |}
  = "cost_center_north_east" /\
  Azure.group_name "cost center" "north east" = "cost center_north east" /\
  Gcp.group_name "cost center" "north east" = "cost center_north east".
Proof.
  repeat split; try reflexivity.
  - apply replace_spaces_length.
  - intros n. apply replace_spaces_get.
  - apply replace_spaces_no_space.
Qed.

(** C3, as stated, fails on the AWS script: a tag whose value is empty gives
    the name "env_", with the underscore, and not "env". *)
Lemma aws_empty_value_keeps_underscore :
  Aws.group_name {| Aws.Key := Some "env"; Aws.Value := Some "" |} = "env_" /\
  Aws.group_name {| Aws.Key := Some "env"; Aws.Value := Some "" |} <> "env".
Proof. split; [reflexivity | discriminate]. Qed.

(** C3, amended. In the Azure and GCP scripts the name of the group of a tag
    is key, underscore, value when the value is not empty, and the key alone
    when it is empty. In the AWS script the name is always key, underscore,
    value (both with spaces replaced, a missing key or value read as the
    empty string), so that an empty or missing value leaves the key followed
    by an underscore. *)
Theorem group_name_rule :
  (forall tag c v,
      Azure.group_name tag (String c v) = (tag ++ "_" ++ String c v)%string) /\
  (forall tag, Azure.group_name tag "" = tag) /\
  (forall key c v,
      Gcp.group_name key (String c v) = (key ++ "_" ++ String c v)%string) /\
  (forall key, Gcp.group_name key "" = key) /\
  (forall key value,
      Aws.group_name {| Aws.Key := Some key; Aws.Value := Some value |} =
      (Py.replace_spaces key ++ "_" ++ Py.replace_spaces value)%string) /\
  (forall key,
      Aws.group_name {| Aws.Key := Some key; Aws.Value := Some "" |} =
      (Py.replace_spaces key ++ "_")%string) /\
  (forall key,
      Aws.group_name {| Aws.Key := Some key; Aws.Value := None |} =
      (Py.replace_spaces key ++ "_")%string) /\
  (forall value,
      Aws.group_name {| Aws.Key := None; Aws.Value := Some value |} =
      ("_" ++ Py.replace_spaces value)%string).
Proof. repeat split; reflexivity. Qed.

(** ** The aggregation step of each script *)

Section StepFacts.

Context {A : Type}.
Implicit Types (d : @iplists A) (addrs : list A).

Lemma update_fresh_entry n (f : list A -> list A) (v : list A) d :
  ~ In n (Dict.keys d) ->
  Dict.update n f (d ++ [(n, v)]) = d ++ [(n, f v)].
Proof.
  induction d as [|[k w] r IH]; simpl; intros Hnin.
  - now rewrite String.eqb_refl.
  - destruct (String.eqb n k) eqn:E.
    + apply String.eqb_eq in E. subst. tauto.
    + rewrite IH by tauto. reflexivity.
Qed.

Lemma setdefault_extend_fresh n addrs d :
  ~ In n (Dict.keys d) -> setdefault_extend n addrs d = d ++ [(n, addrs)].
Proof.
  intros Hnin. unfold setdefault_extend, Dict.setdefault.
  destruct (Dict.mem n d) eqn:E.
  - apply mem_keys in E. tauto.
  - now apply update_fresh_entry.
Qed.

(** Pairwise distinct new names: one new entry per name, each holding the
    whole address list. *)
Lemma extend_all_fresh names addrs d :
  NoDup names ->
  (forall n, In n names -> ~ In n (Dict.keys d)) ->
  extend_all names addrs d = d ++ map (fun n => (n, addrs)) names.
Proof.
  revert d. induction names as [|n ns IH]; intros d Hnd Hfresh; simpl.
  - now rewrite app_nil_r.
  - inversion Hnd as [|? ? Hnin Hnd']. subst.
    unfold extend_all in *. simpl.
    rewrite setdefault_extend_fresh by (apply Hfresh; now left).
    rewrite IH; [now rewrite <- app_assoc | exact Hnd' |].
    intros m Hm. unfold Dict.keys. rewrite map_app, in_app_iff. simpl.
    intros [H|[H|[]]].
    + apply (Hfresh m); [now right | exact H].
    + congruence.
Qed.

Lemma concat_repeat_nil (k : nat) : concat (repeat (@nil A) k) = [].
Proof. induction k; simpl; auto. Qed.

Lemma addresses_extend_all_once names addrs g d :
  NoDup names -> In g names ->
  addresses_of g (extend_all names addrs d) = addresses_of g d ++ addrs.
Proof.
  intros Hnd Hin. rewrite addresses_extend_all.
  rewrite (proj1 (NoDup_count_occ' string_dec names) Hnd g Hin).
  simpl. now rewrite app_nil_r.
Qed.

(** *** AWS *)

Lemma aws_aggregate_instance_tagged cfg d (i : Aws.instance (A:=A)) :
  Aws.tags i <> [] ->
  Aws.aggregate_instance cfg d i =
  extend_all (map Aws.group_name (Aws.tags i)) (Aws.private_address i) d.
Proof.
  intros Hne. unfold Aws.aggregate_instance.
  destruct (Aws.tags i) as [|t r] eqn:E; [congruence|]. simpl Py.truthy_list.
  cbv iota. apply extend_all_map.
Qed.

Lemma aws_aggregate_instance_untagged cfg d (i : Aws.instance (A:=A)) :
  Aws.tags i = [] ->
  Aws.aggregate_instance cfg d i =
  setdefault_extend (Aws.fallback_name cfg i) (Aws.private_address i) d.
Proof. intros E. unfold Aws.aggregate_instance. now rewrite E. Qed.

Lemma aws_fallback_name cfg (i : Aws.instance (A:=A)) :
  Aws.fallback_name cfg i =
  match Aws.untagged_group cfg with
  | Some (String c s) => String c s
  | _ => ("untagged-aws-" ++ Aws.placement i)%string
  end.
Proof.
  unfold Aws.fallback_name.
  destruct (Aws.untagged_group cfg) as [[|c s]|]; reflexivity.
Qed.

Lemma aws_aggregate_instance_nodup cfg d (i : Aws.instance (A:=A)) :
  NoDup (Dict.keys d) -> NoDup (Dict.keys (Aws.aggregate_instance cfg d i)).
Proof.
  intros Hnd. destruct (Aws.tags i) as [|t r] eqn:E.
  - rewrite aws_aggregate_instance_untagged by exact E.
    now apply nodup_setdefault_extend.
  - rewrite aws_aggregate_instance_tagged by congruence.
    now apply nodup_extend_all.
Qed.

(** The aggregate of the pages is the aggregate of their concatenation. *)
Lemma aws_aggregate_concat cfg (batches : list (list (Aws.instance (A:=A)))) :
  Aws.aggregate cfg batches =
  fold_left (Aws.aggregate_instance cfg) (concat batches) (@Dict.empty (list A)).
Proof.
  unfold Aws.aggregate. generalize (@Dict.empty (list A)) as d.
  induction batches as [|b r IH]; intros d; simpl; [reflexivity|].
  rewrite fold_left_app. apply IH.
Qed.

Lemma aws_aggregate_nodup cfg (batches : list (list (Aws.instance (A:=A)))) :
  NoDup (Dict.keys (Aws.aggregate cfg batches)).
Proof.
  rewrite aws_aggregate_concat.
  assert (H : NoDup (Dict.keys (@Dict.empty (list A)))) by constructor.
  revert H. generalize (@Dict.empty (list A)) as d.
  induction (concat batches) as [|i r IH]; intros d Hnd; simpl; [exact Hnd|].
  apply IH. now apply aws_aggregate_instance_nodup.
Qed.

(** *** Azure *)

Lemma azure_aggregate_vm_names d (value : Azure.vm_d (A:=A)) :
  Azure.aggregate_vm d value =
  extend_all (map (fun t => Azure.group_name (fst t) (snd t))
                  (Azure.tags value))
             (Azure.private_address value) d.
Proof.
  unfold Azure.aggregate_vm, Dict.items.
  destruct (Azure.tags value) as [|t r]; [reflexivity|].
  simpl Py.truthy_list. cbv iota.
  rewrite <- extend_all_map. generalize (t :: r) as l. revert d.
  intros d l. revert d. induction l as [|[tag v] l IH]; intros d; simpl.
  - reflexivity.
  - apply IH.
Qed.

End StepFacts.

Section GcpFacts.

Context {I A : Type}.
Implicit Types (d : @iplists A) (h : Gcp.host (A:=A)).

(** A host that has the key ['private_address']: the label loop is the
    loop [extend_all] over the names of the labels. *)
Lemma gcp_aggregate_host_bound d h addrs :
  Gcp.private_address h = Some addrs ->
  Gcp.aggregate_host (I:=I) d h =
  ret (extend_all (map (fun l => Gcp.group_name (fst l) (snd l))
                       (Gcp.host_labels h)) addrs d).
Proof.
  intros E. unfold Gcp.aggregate_host, Dict.items.
  revert d. induction (Gcp.host_labels h) as [|[key value] r IH]; intros d.
  - reflexivity.
  - cbn [fold_run map]. unfold Gcp.add_label at 1. rewrite E.
    rewrite bind_ret_l, IH. reflexivity.
Qed.

(** A host without that key and with at least one label: the first label
    already raises. *)
Lemma gcp_aggregate_host_unbound d h :
  Gcp.private_address h = None -> Gcp.host_labels h <> [] ->
  Gcp.aggregate_host (I:=I) d h = raise Py.TypeError.
Proof.
  intros E Hne. unfold Gcp.aggregate_host, Dict.items.
  destruct (Gcp.host_labels h) as [|[key value] r]; [congruence|].
  cbn [fold_run]. unfold Gcp.add_label. rewrite E. reflexivity.
Qed.

Lemma gcp_aggregate_host_unlabelled d h :
  Gcp.host_labels h = [] -> Gcp.aggregate_host (I:=I) d h = ret d.
Proof. intros E. unfold Gcp.aggregate_host. now rewrite E. Qed.

(** The key is missing exactly when the instance has no interface. *)
Lemma gcp_hostdata_private_address (i : Gcp.raw_instance (A:=A)) :
  Gcp.private_address (Gcp.hostdata i) =
  match Gcp.network_interfaces i with
  | [] => None
  | l => Some l
  end.
Proof.
  unfold Gcp.hostdata. simpl.
  destruct (Gcp.network_interfaces i) as [|a l]; [reflexivity|]. simpl.
  change (a :: l) with ([a] ++ l). generalize [a] as pre.
  induction l as [|b l IH]; intros pre; simpl.
  - now rewrite app_nil_r.
  - rewrite IH. now rewrite <- app_assoc.
Qed.

End GcpFacts.

(** ** Untagged instances *)

(** C1, as stated, fails on the Azure and GCP scripts: neither has a
    fallback group. On the sample quoted in [azure/main.py] the address
    10.0.0.4 of the untagged machine is in no group at all, and an inventory
    of untagged machines only gives the empty aggregate. *)
Lemma azure_gcp_drop_untagged_instances :
  Azure.aggregate Sample.azure_result =
    [("some_host_type", ["10.1.0.4"]);
     ("some_other_tag_with_value_value_for_named_tag", ["10.1.0.4"])] /\
  Azure.aggregate [("subscription", [Sample.azure_machine])] = [] /\
  Gcp.aggregate (I:=unit)
    (Gcp.list_all_instances (Sample.gcp_cloud [Sample.gcp_unlabelled]))
  = ([], Ok []).
Proof. repeat split; reflexivity. Qed.

(** C1, amended. In the AWS script, an instance without non-Name tags has
    its private addresses appended to the fallback group and to no other
    group; the fallback group is the [--untagged_group] name when a
    non-empty one is given and "untagged-aws-<placement>" otherwise. The
    Azure and GCP scripts have no fallback group: there an instance without
    tags (labels) leaves the aggregate as it is. *)
Theorem untagged_instance_placement :
  (forall (A : Type) (cfg : Aws.config) (d : @iplists A) (i : Aws.instance),
      Aws.tags i = [] ->
      addresses_of (Aws.fallback_name cfg i) (Aws.aggregate_instance cfg d i)
      = addresses_of (Aws.fallback_name cfg i) d ++ Aws.private_address i /\
      (forall g, g <> Aws.fallback_name cfg i ->
                 Dict.get g (Aws.aggregate_instance cfg d i) = Dict.get g d) /\
      Aws.aggregate cfg [[i]]
      = [(Aws.fallback_name cfg i, Aws.private_address i)] /\
      Aws.fallback_name cfg i =
      match Aws.untagged_group cfg with
      | Some (String c s) => String c s
      | _ => ("untagged-aws-" ++ Aws.placement i)%string
      end) /\
  (forall (A : Type) (d : @iplists A) (value : Azure.vm_d),
      Azure.tags value = [] -> Azure.aggregate_vm d value = d) /\
  (forall (I A : Type) (d : @iplists A) (h : Gcp.host),
      Gcp.host_labels h = [] -> Gcp.aggregate_host (I:=I) d h = ret d).
Proof.
  split; [|split].
  - intros A cfg d i E. repeat split.
    + rewrite aws_aggregate_instance_untagged by exact E.
      apply addresses_setdefault_extend_same.
    + intros g Hne. rewrite aws_aggregate_instance_untagged by exact E.
      apply get_setdefault_extend_other. congruence.
    + unfold Aws.aggregate. simpl.
      rewrite aws_aggregate_instance_untagged by exact E.
      apply (setdefault_extend_fresh _ _ (@Dict.empty (list A))).
      simpl. tauto.
    + apply aws_fallback_name.
  - intros A d value E. unfold Azure.aggregate_vm. now rewrite E.
  - intros I A d h E. now apply gcp_aggregate_host_unlabelled.
Qed.

Lemma untagged_instance_placement_witness :
  (addresses_of "untagged-aws-us-east-1a"
     (Aws.aggregate_instance (Sample.aws_config false)
        [("env_prod", ["10.0.0.1"])] Sample.aws_vm2)
   = ["10.0.0.2"] /\
   Aws.aggregate (Sample.aws_config false) [[Sample.aws_vm2]]
   = [("untagged-aws-us-east-1a", ["10.0.0.2"])]) /\
  Azure.aggregate_vm [("env_prod", ["10.0.0.1"])] Sample.azure_machine
  = [("env_prod", ["10.0.0.1"])] /\
  Gcp.aggregate_host (I:=unit) [("env_prod", ["10.0.0.1"])]
    (Gcp.hostdata Sample.gcp_unlabelled)
  = ret [("env_prod", ["10.0.0.1"])].
Proof.
  destruct untagged_instance_placement as [Haws [Hazure Hgcp]].
  split; [|split].
  - destruct (Haws string (Sample.aws_config false)
                   [("env_prod", ["10.0.0.1"])] Sample.aws_vm2 eq_refl)
      as [H1 [_ [H3 _]]].
    split; [exact H1 | exact H3].
  - exact (Hazure string [("env_prod", ["10.0.0.1"])] Sample.azure_machine
                  eq_refl).
  - exact (Hgcp unit string [("env_prod", ["10.0.0.1"])]
                (Gcp.hostdata Sample.gcp_unlabelled) eq_refl).
Defined.

(** ** Fan-out over the tags *)

(** C2, as stated, fails. Two tags of one instance can give the same group
    name, and then the instance is in fewer groups than it has tags, with
    its addresses twice in the shared group: in the Azure script the tags
    app=web_1 and app_web=1 both name the group "app_web_1"; in the AWS
    script the keys "cost center" and "cost_center" meet once the space is
    replaced. And the Azure script sets no Name tag aside: a machine with the
    tags Name=web and env=prod has one tag that is not keyed Name and is in
    two groups. *)
Lemma two_tags_one_group :
  length (Azure.tags Sample.azure_two_tags_one_name) = 2 /\
  Azure.aggregate [("subscription", [Sample.azure_two_tags_one_name])]
  = [("app_web_1", ["10.0.0.1"; "10.0.0.1"])] /\
  length (Aws.tags Sample.aws_two_tags_one_name) = 2 /\
  Aws.aggregate (Sample.aws_config false) [[Sample.aws_two_tags_one_name]]
  = [("cost_center_a", ["10.0.0.9"; "10.0.0.9"])] /\
  Azure.tags Sample.azure_named = [("Name", "web"); ("env", "prod")] /\
  Azure.aggregate [("subscription", [Sample.azure_named])]
  = [("Name_web", ["10.0.0.6"]); ("env_prod", ["10.0.0.6"])].
Proof. repeat split; reflexivity. Qed.

Lemma extend_all_fans_out {A : Type} names (addrs : list A) d :
  fans_out names addrs d (extend_all names addrs d).
Proof.
  repeat split.
  - intros g. apply addresses_extend_all.
  - intros g Hnin. now apply get_extend_all_other.
  - apply in_keys_extend_all.
  - apply in_keys_extend_all.
  - intros g Hin. now apply addresses_extend_all_once.
  - intros Hfresh. now apply extend_all_fresh.
Qed.

(** C2, amended. The tags that count are, in the AWS script, the tags of
    the normalized instance, which are the tags of the listing that are not
    Name tags; in the Azure script, all the tags of the machine, a tag keyed
    Name included, since that script sets no tag aside. An instance with
    N >= 1 such tags has its whole private-address list appended once per
    tag, to the group that the tag names, and to no other group; the list is
    never split. When the N group names are pairwise distinct, each of these
    N groups receives the list exactly once (and, the names being new, the
    aggregate grows by exactly N entries, each holding the whole list); tags
    whose names coincide share one group, which receives the list once per
    such tag. *)
Theorem tag_fan_out :
  (forall (A : Type) (cfg : Aws.config) (d : @iplists A) (i : Aws.instance),
      Aws.tags i <> [] ->
      length (map Aws.group_name (Aws.tags i)) = length (Aws.tags i) /\
      fans_out (map Aws.group_name (Aws.tags i)) (Aws.private_address i)
               d (Aws.aggregate_instance cfg d i)) /\
  (forall (A : Type) (i : Aws.raw_instance (A:=A)),
      Aws.tags (Aws.normalize i)
      = filter (fun tag => negb (Aws.is_name_tag tag)) (Aws.Tags i)) /\
  (forall (A : Type) (d : @iplists A) (value : Azure.vm_d),
      Azure.tags value <> [] ->
      length (map (fun t => Azure.group_name (fst t) (snd t))
                  (Azure.tags value)) = length (Azure.tags value) /\
      fans_out (map (fun t => Azure.group_name (fst t) (snd t))
                    (Azure.tags value))
               (Azure.private_address value)
               d (Azure.aggregate_vm d value)) /\
  (forall (A : Type) (vm : Azure.raw_vm (A:=A)) l,
      Azure.vm_tags vm = Some l ->
      Azure.tags (Azure.get_virtual_machine_details vm) = l) /\
  (forall (A : Type) (value : Azure.vm_d (A:=A)) c v,
      In ("Name", String c v) (Azure.tags value) ->
      In ("Name_" ++ String c v)%string
         (map (fun t => Azure.group_name (fst t) (snd t)) (Azure.tags value))).
Proof.
  split; [|split; [|split; [|split]]].
  - intros A cfg d i Hne. split; [apply length_map|].
    rewrite aws_aggregate_instance_tagged by exact Hne.
    apply extend_all_fans_out.
  - intros A i. reflexivity.
  - intros A d value _. split; [apply length_map|].
    rewrite azure_aggregate_vm_names. apply extend_all_fans_out.
  - intros A vm l E. unfold Azure.get_virtual_machine_details.
    cbn [Azure.tags]. rewrite E. destruct l; reflexivity.
  - intros A value c v Hin.
    change ("Name_" ++ String c v)%string
      with ((fun t => Azure.group_name (fst t) (snd t)) ("Name", String c v)).
    now apply in_map.
Qed.

Lemma tag_fan_out_witness :
  Aws.aggregate_instance (Sample.aws_config false) [] Sample.aws_vm1_two_tags
  = [("env_prod", ["10.0.0.1"]); ("team_infra", ["10.0.0.1"])] /\
  Azure.aggregate_vm [] Sample.azure_windows
  = [("some_host_type", ["10.1.0.4"]);
     ("some_other_tag_with_value_value_for_named_tag", ["10.1.0.4"])] /\
  Azure.aggregate_vm [] Sample.azure_named
  = [("Name_web", ["10.0.0.6"]); ("env_prod", ["10.0.0.6"])] /\
  Azure.tags (Azure.get_virtual_machine_details Sample.azure_raw_windows)
  = [("some_host_type", "");
     ("some_other_tag_with_value", "value_for_named_tag")].
Proof.
  destruct tag_fan_out as [Haws [_ [Hazure [Hkept _]]]].
  split; [|split; [|split]].
  - destruct (Haws string (Sample.aws_config false) [] Sample.aws_vm1_two_tags)
      as [_ [_ [_ [_ Hdistinct]]]]; [discriminate|].
    apply Hdistinct.
    + repeat constructor; simpl; intuition discriminate.
    + simpl. tauto.
  - destruct (Hazure string [] Sample.azure_windows)
      as [_ [_ [_ [_ Hdistinct]]]]; [discriminate|].
    apply Hdistinct.
    + repeat constructor; simpl; intuition discriminate.
    + simpl. tauto.
  - destruct (Hazure string [] Sample.azure_named)
      as [_ [_ [_ [_ Hdistinct]]]]; [discriminate|].
    apply Hdistinct.
    + repeat constructor; simpl; intuition discriminate.
    + simpl. tauto.
  - apply (Hkept string Sample.azure_raw_windows). reflexivity.
Defined.

(** ** Pagination (AWS) *)

Section PaginationFacts.

Context {A : Type}.
Implicit Types (rs : list (Aws.reservation (A:=A))).

Lemma normalize_all_app rs rs' :
  Aws.normalize_all (rs ++ rs') =
  Aws.normalize_all rs ++ Aws.normalize_all rs'.
Proof. unfold Aws.normalize_all. apply flat_map_app. Qed.

(** The resumed calls deliver what is left after the token. *)
Lemma describe_instances_rest_total fuel rs page_size t :
  1 <= page_size -> length rs - S t < fuel ->
  exists pages,
    Aws.describe_instances_rest fuel rs page_size (S t) = Some pages /\
    concat pages = Aws.normalize_all (skipn (S t) rs).
Proof.
  revert t. induction fuel as [|fuel IH]; intros t Hps Hfuel; [lia|].
  cbn [Aws.describe_instances_rest Aws.describe_instances].
  destruct (Nat.ltb (S t + page_size) (length rs)) eqn:E.
  - apply Nat.ltb_lt in E.
    destruct (IH (t + page_size) Hps) as [pages [Hp Hc]]; [lia|].
    replace (S t + page_size) with (S (t + page_size)) by lia.
    rewrite Hp. cbn [option_map]. eexists; split; [reflexivity|].
    cbn [concat]. rewrite Hc, <- normalize_all_app. f_equal.
    replace (S (t + page_size)) with (page_size + S t) by lia.
    rewrite <- skipn_skipn. apply firstn_skipn.
  - apply Nat.ltb_ge in E. eexists; split; [reflexivity|].
    cbn [concat]. rewrite app_nil_r. f_equal. apply firstn_all2.
    rewrite length_skipn. lia.
Qed.

(** With a page size of at least one and fuel for one call per
    reservation, the generator ends, and its pages put end to end are the
    whole inventory in order. *)
Lemma describe_instances_all_total fuel rs page_size :
  1 <= page_size -> length rs <= fuel ->
  exists pages,
    Aws.describe_instances_all fuel rs page_size = Some pages /\
    concat pages = Aws.normalize_all rs.
Proof.
  intros Hps Hfuel. unfold Aws.describe_instances_all.
  cbn [Aws.describe_instances]. rewrite Nat.add_0_l.
  destruct (Nat.ltb page_size (length rs)) eqn:E.
  - apply Nat.ltb_lt in E. destruct page_size as [|t]; [lia|].
    destruct (@describe_instances_rest_total fuel rs (S t) t)
      as [pages [Hp Hc]]; [lia | lia |].
    rewrite Hp. cbn [option_map]. eexists; split; [reflexivity|].
    cbn [concat]. rewrite Hc, <- normalize_all_app. f_equal.
    apply firstn_skipn.
  - apply Nat.ltb_ge in E. eexists; split; [reflexivity|].
    cbn [concat]. rewrite app_nil_r. f_equal. now apply firstn_all2.
Qed.

Lemma aws_aggregate_same_concat cfg
      (pages pages' : list (list (Aws.instance (A:=A)))) :
  concat pages = concat pages' ->
  Aws.aggregate cfg pages = Aws.aggregate cfg pages'.
Proof. intros E. rewrite !aws_aggregate_concat. now rewrite E. Qed.

End PaginationFacts.

(** C6. The aggregate does not depend on how the inventory is cut into
    pages: [iplists] is created once, before the loop over the pages, so any
    two sequences of pages with the same instances in the same order give
    the same aggregate; in particular three pages of one instance and one
    page of three instances do. With the paginator serving an inventory in
    pages of a given size, the generator ends for every page size of at least
    one, and the aggregate is the same for any two such sizes. *)
Theorem pagination_independence :
  (forall (A : Type) cfg (pages pages' : list (list (Aws.instance (A:=A)))),
      concat pages = concat pages' ->
      Aws.aggregate cfg pages = Aws.aggregate cfg pages') /\
  (forall (A : Type) cfg (a b c : Aws.instance (A:=A)),
      Aws.aggregate cfg [[a]; [b]; [c]] = Aws.aggregate cfg [[a; b; c]]) /\
  (forall (A : Type) (a b c : Aws.raw_instance (A:=A)),
      Aws.describe_instances_all 3 [[a]; [b]; [c]] 1
      = Some [[Aws.normalize a]; [Aws.normalize b]; [Aws.normalize c]] /\
      Aws.describe_instances_all 3 [[a]; [b]; [c]] 100
      = Some [[Aws.normalize a; Aws.normalize b; Aws.normalize c]]) /\
  (forall (A : Type) cfg (rs : list (Aws.reservation (A:=A))) p q,
      1 <= p -> 1 <= q ->
      exists pages_p pages_q,
        Aws.describe_instances_all (length rs) rs p = Some pages_p /\
        Aws.describe_instances_all (length rs) rs q = Some pages_q /\
        Aws.aggregate cfg pages_p = Aws.aggregate cfg pages_q /\
        Aws.aggregate cfg pages_p =
        fold_left (Aws.aggregate_instance cfg) (Aws.normalize_all rs)
                  Dict.empty).
Proof.
  split; [|split; [|split]].
  - intros A cfg pages pages'. apply aws_aggregate_same_concat.
  - intros A cfg a b c. now apply aws_aggregate_same_concat.
  - intros A a b c. split; reflexivity.
  - intros A cfg rs p q Hp Hq.
    destruct (@describe_instances_all_total A (length rs) rs p Hp (le_n _))
      as [pages_p [Ep Cp]].
    destruct (@describe_instances_all_total A (length rs) rs q Hq (le_n _))
      as [pages_q [Eq Cq]].
    exists pages_p, pages_q. repeat split; try assumption.
    + apply aws_aggregate_same_concat. congruence.
    + rewrite aws_aggregate_concat. now rewrite Cp.
Qed.

Lemma pagination_independence_witness :
  Aws.aggregate (Sample.aws_config false)
                [[Sample.aws_vm1]; [Sample.aws_vm2]; [Sample.aws_vm1_two_tags]]
  = Aws.aggregate (Sample.aws_config false)
                  [[Sample.aws_vm1; Sample.aws_vm2; Sample.aws_vm1_two_tags]] /\
  exists pages_1 pages_100,
    Aws.describe_instances_all 3 (Aws.reservations Sample.aws_cloud) 1
    = Some pages_1 /\
    Aws.describe_instances_all 3 (Aws.reservations Sample.aws_cloud) 100
    = Some pages_100 /\
    Aws.aggregate (Sample.aws_config false) pages_1
    = Aws.aggregate (Sample.aws_config false) pages_100.
Proof.
  destruct pagination_independence as [Hpages [_ [_ Hsizes]]]. split.
  - apply Hpages. reflexivity.
  - destruct (Hsizes string (Sample.aws_config false)
                     (Aws.reservations Sample.aws_cloud) 1 100)
      as [pages_1 [pages_100 [H1 [H100 [Heq _]]]]]; [lia | lia |].
    exists pages_1, pages_100. repeat split; assumption.
Defined.

(** ** The runs of the three scripts *)

Section MainFacts.

Context {A : Type}.
Implicit Types (server : smc A).

Lemma for_each_emit {I X : Type} (f : X -> event I A) (l : list X) :
  for_each l (fun x => emit (f x)) = (map f l, Ok tt).
Proof.
  induction l as [|x r IH]; [reflexivity|].
  cbn [for_each map]. rewrite bind_emit, IH. reflexivity.
Qed.

(** What a run does once it is past the login: the publish loop, then
    [sys.exit(0)] if the loop came to its end. *)
Lemma publish_then_exit {I : Type} server (d : @iplists A) :
  bind (publish (I:=I) server d) (fun _ => sys_exit 0) =
  (trace (publish (I:=I) server d),
   match outcome (publish (I:=I) server d) with
   | Ok _ => SysExit unit 0
   | o => o
   end).
Proof.
  unfold trace, outcome.
  destruct (publish server d) as [tr [[]|e|c]]; simpl;
    now rewrite ?app_nil_r.
Qed.

(** *** AWS *)

Lemma aws_main_on_report cfg server vpc_ids
      (batches : list (list (Aws.instance (A:=A)))) :
  Aws.report_only cfg = true ->
  Aws.main_on cfg server vpc_ids batches =
  (PrintData (Aws.PVpcs vpc_ids)
     :: map (fun b => PrintData (Aws.PBatch b)) batches
     ++ [PrintAggregate (Aws.aggregate cfg batches)],
   SysExit unit 0).
Proof.
  intros E. unfold Aws.main_on. rewrite E. cbn [when negb].
  rewrite for_each_emit, bind_emit. cbn [trace outcome fst snd].
  reflexivity.
Qed.

Lemma aws_main_on_publish cfg server vpc_ids
      (batches : list (list (Aws.instance (A:=A)))) :
  Aws.report_only cfg = false ->
  Aws.main_on cfg server vpc_ids batches =
  if login_ok server
  then (Login :: trace (publish (I:=Aws.printed (A:=A)) server
                                (Aws.aggregate cfg batches)),
        match outcome (publish (I:=Aws.printed (A:=A)) server
                               (Aws.aggregate cfg batches)) with
        | Ok _ => SysExit unit 0
        | o => o
        end)
  else ([Login], Raise unit Py.ApiError).
Proof.
  intros E. unfold Aws.main_on. rewrite E. cbn [when negb].
  rewrite bind_ret_l. unfold session_login. rewrite bind_emit.
  destruct (login_ok server); [|reflexivity].
  cbn [trace outcome fst snd ret]. rewrite bind_ret_l.
  cbn [bind]. rewrite publish_then_exit. reflexivity.
Qed.

(** *** Azure *)

Lemma azure_aggregation_loop
      (result : Dict.t (list (Azure.vm_d (A:=A)))) (d : @iplists A) :
  fold_run Azure.aggregate_subscription (Dict.items result) d
  = (map (fun e => PrintText ("Operating on subscription: " ++ fst e)%string)
         result,
     Ok (fold_left (fun d '(_, values) => fold_left Azure.aggregate_vm values d)
                   (Dict.items result) d)).
Proof.
  unfold Dict.items. revert d.
  induction result as [|[subscription values] r IH]; intros d.
  - reflexivity.
  - cbn [fold_run map fold_left fst]. unfold Azure.aggregate_subscription at 1.
    rewrite bind_assoc, bind_emit.
    rewrite bind_ret_l, IH. reflexivity.
Qed.

Lemma azure_main_no_subscription cfg server (c : Azure.cloud (A:=A)) :
  Azure.scanned_subscriptions cfg c = [] ->
  Azure.main cfg server c
  = ([LogError (Azure.no_subscription_message c)], SysExit unit 1).
Proof. intros E. unfold Azure.main. rewrite E. reflexivity. Qed.

Lemma azure_main_report cfg server (c : Azure.cloud (A:=A)) :
  Azure.report_only cfg = true ->
  Azure.scanned_subscriptions cfg c <> [] ->
  Azure.main cfg server c =
  ([PrintData (Azure.collect c (Azure.scanned_subscriptions cfg c))],
   SysExit unit 0).
Proof.
  intros E Hne. unfold Azure.main. rewrite E.
  destruct (Azure.scanned_subscriptions cfg c) as [|s r]; [congruence|].
  reflexivity.
Qed.

Lemma azure_main_publish cfg server (c : Azure.cloud (A:=A)) :
  Azure.report_only cfg = false ->
  Azure.scanned_subscriptions cfg c <> [] ->
  let result := Azure.collect c (Azure.scanned_subscriptions cfg c) in
  let run_publish :=
    publish (I:=Dict.t (list (Azure.vm_d (A:=A)))) server
            (Azure.aggregate result) in
  Azure.main cfg server c =
  if login_ok server
  then (Login
          :: map (fun e =>
                    PrintText ("Operating on subscription: " ++ fst e)%string)
                 result
          ++ trace run_publish,
        match outcome run_publish with
        | Ok _ => SysExit unit 0
        | o => o
        end)
  else ([Login], Raise unit Py.ApiError).
Proof.
  intros E Hne result run_publish. unfold Azure.main. rewrite E.
  destruct (Azure.scanned_subscriptions cfg c) as [|s r] eqn:Es;
    [congruence|].
  cbn [Py.truthy_list negb when]. rewrite !bind_ret_l.
  unfold session_login. rewrite bind_assoc, bind_emit.
  destruct (login_ok server); [|reflexivity].
  rewrite bind_ret_l, azure_aggregation_loop.
  subst result run_publish. unfold Azure.aggregate.
  rewrite bind_ok, publish_then_exit. reflexivity.
Qed.

(** *** GCP *)

(** The aggregation prints nothing and does not leave with [sys.exit]. *)
Lemma fold_run_quiet {I X S : Type} (body : S -> X -> run I A S) l s :
  (forall s x, trace (body s x) = [] /\
               forall c, outcome (body s x) <> SysExit S c) ->
  trace (fold_run body l s) = [] /\
  forall c, outcome (fold_run body l s) <> SysExit S c.
Proof.
  intros Hbody. revert s. induction l as [|x r IH]; intros s.
  - split; [reflexivity | discriminate].
  - cbn [fold_run]. destruct (Hbody s x) as [Ht Ho].
    destruct (body s x) as [tr [s'|e|c]]; simpl in *; subst.
    + destruct (IH s') as [Ht' Ho'].
      destruct (fold_run body r s') as [tr' o']. simpl in *. auto.
    + split; [reflexivity | discriminate].
    + exfalso. now apply (Ho c).
Qed.

Lemma gcp_aggregate_quiet {I : Type} (inv : Gcp.inventory (A:=A)) :
  trace (Gcp.aggregate (I:=I) inv) = [] /\
  forall c, outcome (Gcp.aggregate (I:=I) inv) <> SysExit _ c.
Proof.
  destruct inv as [all_instances|pager].
  - unfold Gcp.aggregate. apply fold_run_quiet. intros d [z hosts].
    apply fold_run_quiet. intros d' h. unfold Gcp.aggregate_host.
    apply fold_run_quiet. intros d'' [key value]. unfold Gcp.add_label.
    destruct (Gcp.private_address h); split; try reflexivity; discriminate.
  - split; [reflexivity | discriminate].
Qed.

Lemma gcp_main_report cfg server (c : Gcp.cloud (A:=A)) :
  Gcp.report_only cfg = true ->
  let instances := Gcp.inventory_of cfg c in
  Gcp.main cfg server c =
  match outcome (Gcp.aggregate (I:=Gcp.inventory (A:=A)) instances) with
  | Ok g => ([PrintData instances; PrintAggregate g], SysExit unit 0)
  | Raise _ e => ([PrintData instances], Raise unit e)
  | SysExit _ code => ([PrintData instances], SysExit unit code)
  end.
Proof.
  intros E instances. unfold Gcp.main. fold instances. rewrite E.
  cbn [when negb]. rewrite bind_emit, bind_ret_l.
  destruct (gcp_aggregate_quiet (I:=Gcp.inventory (A:=A)) instances) as [Ht _].
  destruct (Gcp.aggregate instances) as [tr [g|e|code]];
    simpl in Ht; subst; reflexivity.
Qed.

Lemma gcp_main_publish cfg server (c : Gcp.cloud (A:=A)) :
  Gcp.report_only cfg = false ->
  let instances := Gcp.inventory_of cfg c in
  Gcp.main cfg server c =
  if login_ok server then
    match outcome (Gcp.aggregate (I:=Gcp.inventory (A:=A)) instances) with
    | Ok g => (Login :: trace (publish (I:=Gcp.inventory (A:=A)) server g),
               match outcome (publish (I:=Gcp.inventory (A:=A)) server g) with
               | Ok _ => SysExit unit 0
               | o => o
               end)
    | Raise _ e => ([Login], Raise unit e)
    | SysExit _ code => ([Login], SysExit unit code)
    end
  else ([Login], Raise unit Py.ApiError).
Proof.
  intros E instances. unfold Gcp.main. fold instances. rewrite E.
  cbn [when negb]. rewrite bind_ret_l. unfold session_login.
  rewrite bind_assoc, bind_emit.
  destruct (login_ok server); [|reflexivity].
  rewrite bind_ret_l.
  destruct (gcp_aggregate_quiet (I:=Gcp.inventory (A:=A)) instances) as [Ht _].
  destruct (Gcp.aggregate instances) as [tr [g|e|code]];
    simpl in Ht; subst; try reflexivity.
  rewrite bind_ok, bind_ret_l, publish_then_exit. reflexivity.
Qed.

End MainFacts.

(** ** Report-only runs *)

Section ReportFacts.

Context {A : Type}.


End ReportFacts.

(** ** Publish runs on a server that accepts everything *)

Section ObligingFacts.

Context {A : Type}.
Implicit Types (server : smc A).

Lemma aws_publish_run cfg server vpc_ids
      (batches : list (list (Aws.instance (A:=A)))) :
  Aws.report_only cfg = false -> accepts_all server ->
  Aws.main_on cfg server vpc_ids batches =
  (Login :: flat_map published (Aws.aggregate cfg batches), SysExit unit 0).
Proof.
  intros E [Hlogin Hupdate]. rewrite aws_main_on_publish by exact E.
  rewrite Hlogin, publish_all_ok by (intros; apply Hupdate). reflexivity.
Qed.

Lemma azure_publish_run cfg server (c : Azure.cloud (A:=A)) :
  Azure.report_only cfg = false -> accepts_all server ->
  Azure.scanned_subscriptions cfg c <> [] ->
  Azure.main cfg server c =
  (Login
     :: map (fun e => PrintText ("Operating on subscription: " ++ fst e)%string)
            (Azure.collect c (Azure.scanned_subscriptions cfg c))
     ++ flat_map published
          (Azure.aggregate
             (Azure.collect c (Azure.scanned_subscriptions cfg c))),
   SysExit unit 0).
Proof.
  intros E [Hlogin Hupdate] Hne.
  rewrite azure_main_publish by assumption.
  rewrite Hlogin, publish_all_ok by (intros; apply Hupdate). reflexivity.
Qed.

Lemma gcp_publish_run cfg server (c : Gcp.cloud (A:=A)) g :
  Gcp.report_only cfg = false -> accepts_all server ->
  outcome (Gcp.aggregate (I:=Gcp.inventory (A:=A)) (Gcp.inventory_of cfg c))
  = Ok g ->
  Gcp.main cfg server c = (Login :: flat_map published g, SysExit unit 0).
Proof.
  intros E [Hlogin Hupdate] Hg. rewrite gcp_main_publish by exact E.
  rewrite Hlogin, Hg, publish_all_ok by (intros; apply Hupdate).
  reflexivity.
Qed.

Lemma obliging_accepts_all : accepts_all (@obliging A).
Proof. split; reflexivity. Qed.

Lemma publish_calls_login_published {I : Type} (d : @iplists A) :
  publish_calls (I:=I) (Login :: flat_map published d) = map call_of d.
Proof. cbn [publish_calls]. apply publish_calls_published. Qed.

End ObligingFacts.




(** ** What the publish loop sends *)

Section SyncFacts.

Context {A : Type}.

Lemma azure_aggregate_nodup (result : Dict.t (list (Azure.vm_d (A:=A)))) :
  NoDup (Dict.keys (Azure.aggregate result)).
Proof.
  unfold Azure.aggregate, Dict.items.
  assert (H : NoDup (Dict.keys (@Dict.empty (list A)))) by constructor.
  revert H. generalize (@Dict.empty (list A)) as d.
  induction result as [|[s values] r IH]; intros d Hnd; [exact Hnd|].
  cbn [fold_left]. apply IH. clear IH. revert d Hnd.
  induction values as [|v vs IHv]; intros d Hnd; [exact Hnd|].
  cbn [fold_left]. apply IHv. rewrite azure_aggregate_vm_names.
  now apply nodup_extend_all.
Qed.

Lemma fold_run_invariant {I X S : Type} (P : S -> Prop)
      (body : S -> X -> run I A S) l s s' :
  (forall s x s', P s -> outcome (body s x) = Ok s' -> P s') ->
  P s -> outcome (fold_run body l s) = Ok s' -> P s'.
Proof.
  intros Hbody. revert s. induction l as [|x r IH]; intros s Hs Hfold.
  - injection Hfold as <-. exact Hs.
  - cbn [fold_run] in Hfold.
    destruct (body s x) as [tr [s1|e|c]] eqn:Eb; try discriminate.
    rewrite bind_ok in Hfold. apply (IH s1); [|exact Hfold].
    apply (Hbody s x); [exact Hs | now rewrite Eb].
Qed.

Lemma gcp_aggregate_nodup {I : Type} (inv : Gcp.inventory (A:=A)) g :
  outcome (Gcp.aggregate (I:=I) inv) = Ok g -> NoDup (Dict.keys g).
Proof.
  destruct inv as [all_instances|pager]; [|discriminate].
  unfold Gcp.aggregate.
  apply (fold_run_invariant (fun d => NoDup (Dict.keys d)));
    [|constructor].
  intros d [z hosts] d'.
  apply (fold_run_invariant (fun d => NoDup (Dict.keys d))).
  intros d1 h d1'. unfold Gcp.aggregate_host.
  apply (fold_run_invariant (fun d => NoDup (Dict.keys d))).
  intros d2 [key value] d2' Hnd. unfold Gcp.add_label.
  destruct (Gcp.private_address h) as [addrs|]; [|discriminate].
  intros [= <-].
  now apply (nodup_setdefault_extend (Gcp.group_name key value) addrs).
Qed.

(** *** The server after the calls *)

Lemma remote_after_other (d : @iplists A) store n :
  ~ In n (Dict.keys d) ->
  Dict.get n (remote_after (map call_of d) store) = Dict.get n store.
Proof.
  revert store. induction d as [|[k v] r IH]; intros store Hnin.
  - reflexivity.
  - unfold remote_after in *. cbn [map fold_left call_of fst snd remote_apply].
    simpl in Hnin. rewrite IH by tauto.
    apply get_set_other. tauto.
Qed.

(** After the calls for an aggregate have all succeeded, every list of
    the aggregate is on the server exactly as it was sent, whatever the
    server held before. *)
Lemma remote_after_publish (d : @iplists A) store n l :
  NoDup (Dict.keys d) -> In (n, l) d ->
  Dict.get n (remote_after (map call_of d) store) = Some l.
Proof.
  revert store. induction d as [|[k v] r IH]; intros store Hnd Hin.
  - destruct Hin.
  - inversion Hnd as [|? ? Hnin Hnd']. subst.
    unfold remote_after in *. cbn [map fold_left call_of fst snd remote_apply].
    destruct Hin as [[= -> ->]|Hin].
    + fold (remote_after (map call_of r) (Dict.set n l store)).
      rewrite remote_after_other by exact Hnin. apply get_set_same.
    + now apply IH.
Qed.

Lemma publish_calls_map_text {I X : Type} (f : X -> string) (l : list X) :
  publish_calls (I:=I) (A:=A) (map (fun x => PrintText (f x)) l) = [].
Proof. induction l as [|x r IH]; simpl; auto. Qed.

End SyncFacts.

(** C5. Every [update_or_create] call of the publish loop carries the name of
    a group of the final aggregate, the complete address list of that group
    and [append_lists=False], and the calls follow the aggregate in order.
    When the calls succeed there is exactly one call per group, in each of
    the three scripts. Group names are pairwise distinct, so that after these
    calls the list of each group on the server is exactly the list of this
    run: an address that the aggregate no longer holds is not kept. *)
Theorem publish_replaces_whole_lists :
  (forall (I A : Type) (server : smc A) (d : @iplists A),
      exists rest,
        map call_of d = publish_calls (trace (publish (I:=I) server d)) ++ rest) /\
  (forall (A : Type) fuel cfg (server : smc A) (c : Aws.cloud) r,
      accepts_all server ->
      Aws.main fuel (Aws.set_report_only false cfg) server c = Some r ->
      exists batches,
        Aws.describe_instances_all fuel (Aws.reservations c) (Aws.page_size cfg)
        = Some batches /\
        publish_calls (trace r) = map call_of (Aws.aggregate cfg batches) /\
        NoDup (Dict.keys (Aws.aggregate cfg batches))) /\
  (forall (A : Type) cfg (server : smc A) (c : Azure.cloud),
      accepts_all server ->
      Azure.scanned_subscriptions cfg c <> [] ->
      publish_calls (trace (Azure.main (Azure.set_report_only false cfg) server c))
      = map call_of
            (Azure.aggregate
               (Azure.collect c (Azure.scanned_subscriptions cfg c))) /\
      NoDup (Dict.keys
               (Azure.aggregate
                  (Azure.collect c (Azure.scanned_subscriptions cfg c))))) /\
  (forall (A : Type) cfg (server : smc A) (c : Gcp.cloud) g,
      accepts_all server ->
      outcome (Gcp.aggregate (I:=Gcp.inventory (A:=A)) (Gcp.inventory_of cfg c))
      = Ok g ->
      publish_calls (trace (Gcp.main (Gcp.set_report_only false cfg) server c))
      = map call_of g /\
      NoDup (Dict.keys g)) /\
  (forall (A : Type) (d : @iplists A) store n l,
      NoDup (Dict.keys d) -> In (n, l) d ->
      Dict.get n (remote_after (map call_of d) store) = Some l /\
      forall a, ~ In a l ->
                ~ In a (addresses_of n (remote_after (map call_of d) store))).
Proof.
  split; [|split; [|split; [|split]]].
  - intros I A server d. apply publish_calls_prefix.
  - intros A fuel cfg server c r Hall Hr.
    unfold Aws.main, Aws.discover_vpcs in Hr.
    cbn [Aws.set_report_only Aws.page_size Aws.skip_vpc_discovery] in Hr.
    destruct (if Aws.skip_vpc_discovery cfg then Some []
              else Aws.describe_vpc_all fuel (Aws.vpcs c) (Aws.page_size cfg))
      as [vpc_ids|]; [|discriminate].
    destruct (Aws.describe_instances_all fuel (Aws.reservations c)
                                         (Aws.page_size cfg))
      as [batches|]; [|discriminate].
    injection Hr as <-. exists batches. split; [reflexivity|].
    rewrite aws_publish_run by (try reflexivity; exact Hall).
    split; [apply publish_calls_login_published | apply aws_aggregate_nodup].
  - intros A cfg server c Hall Hne.
    split; [|apply azure_aggregate_nodup].
    rewrite azure_publish_run by (try reflexivity; assumption).
    cbn [trace fst publish_calls]. rewrite publish_calls_app.
    rewrite publish_calls_map_text. apply publish_calls_published.
  - intros A cfg server c g Hall Hg.
    split; [|exact (gcp_aggregate_nodup _ Hg)].
    erewrite gcp_publish_run by (try reflexivity; eassumption).
    apply publish_calls_login_published.
  - intros A d store n l Hnd Hin.
    assert (H := @remote_after_publish A d store n l Hnd Hin).
    split; [exact H|]. unfold addresses_of. rewrite H. auto.
Qed.

Lemma publish_replaces_whole_lists_witness :
  (exists r,
      Aws.main 3 (Aws.set_report_only false (Sample.aws_config false))
               obliging Sample.aws_cloud = Some r /\
      publish_calls (trace r)
      = [("env_prod", ["10.0.0.1"; "10.0.0.2"], false);
         ("env_test", ["10.0.0.3"], false)]) /\
  Dict.get "env_prod"
    (remote_after
       (map call_of [("env_prod", ["10.0.0.1"; "10.0.0.2"]);
                     ("env_test", ["10.0.0.3"])])
       [("env_prod", ["10.0.0.1"; "10.0.0.7"])])
  = Some ["10.0.0.1"; "10.0.0.2"].
Proof.
  destruct publish_replaces_whole_lists as [_ [Haws [_ [_ Hremote]]]]. split.
  - eexists. split; [reflexivity|].
    destruct (Haws string 3 (Sample.aws_config false) obliging Sample.aws_cloud
                   _ obliging_accepts_all eq_refl) as [batches [Hb [Hc _]]].
    injection Hb as <-. exact Hc.
  - apply Hremote.
    + repeat constructor; simpl; intuition discriminate.
    + left. reflexivity.
Defined.

(** ** A call that fails *)

(** C7, as stated, fails: nothing catches the exception of a publish call.
    With the groups "env_prod" and "team_infra" to publish and a server that
    refuses the first, the run ends in the exception right after the first
    call; no call is made for "team_infra". *)
Lemma one_failure_aborts_the_publish_loop :
  Aws.aggregate (Sample.aws_config false) [[Sample.aws_vm1_two_tags]]
  = [("env_prod", ["10.0.0.1"]); ("team_infra", ["10.0.0.1"])] /\
  Aws.main_on (Sample.aws_config false) (refusing "env_prod") []
              [[Sample.aws_vm1_two_tags]]
  = ([Login; UpdateOrCreate "env_prod" ["10.0.0.1"] false],
     Raise unit Py.ApiError).
Proof. split; reflexivity. Qed.

(** C7, amended. In publish mode, when the [update_or_create] call of a group
    fails, the exception is not caught: the groups before it have been
    published, the failing call is the last event of the run, no call is
    issued for any later group, and the run ends in the exception instead of
    [sys.exit(0)]. This holds for the publish loop and so for the three
    scripts. *)
Theorem publish_failure_ends_the_run :
  (forall (I A : Type) (server : smc A) d1 n l d2,
      (forall n' l', In (n', l') d1 -> update_ok server n' l' = true) ->
      update_ok server n l = false ->
      publish (I:=I) server (d1 ++ (n, l) :: d2)
      = (flat_map published d1 ++ [UpdateOrCreate n l false],
         Raise unit Py.ApiError) /\
      publish_calls (trace (publish (I:=I) server (d1 ++ (n, l) :: d2)))
      = map call_of d1 ++ [(n, l, false)]) /\
  (forall (A : Type) cfg (server : smc A) vpc_ids batches d1 n l d2,
      Aws.report_only cfg = false -> login_ok server = true ->
      Aws.aggregate cfg batches = d1 ++ (n, l) :: d2 ->
      (forall n' l', In (n', l') d1 -> update_ok server n' l' = true) ->
      update_ok server n l = false ->
      Aws.main_on cfg server vpc_ids batches
      = (Login :: flat_map published d1 ++ [UpdateOrCreate n l false],
         Raise unit Py.ApiError)) /\
  (forall (A : Type) cfg (server : smc A) (c : Azure.cloud) d1 n l d2,
      Azure.report_only cfg = false -> login_ok server = true ->
      Azure.scanned_subscriptions cfg c <> [] ->
      Azure.aggregate (Azure.collect c (Azure.scanned_subscriptions cfg c))
      = d1 ++ (n, l) :: d2 ->
      (forall n' l', In (n', l') d1 -> update_ok server n' l' = true) ->
      update_ok server n l = false ->
      outcome (Azure.main cfg server c) = Raise unit Py.ApiError /\
      publish_calls (trace (Azure.main cfg server c))
      = map call_of d1 ++ [(n, l, false)]) /\
  (forall (A : Type) cfg (server : smc A) (c : Gcp.cloud) d1 n l d2,
      Gcp.report_only cfg = false -> login_ok server = true ->
      outcome (Gcp.aggregate (I:=Gcp.inventory (A:=A)) (Gcp.inventory_of cfg c))
      = Ok (d1 ++ (n, l) :: d2) ->
      (forall n' l', In (n', l') d1 -> update_ok server n' l' = true) ->
      update_ok server n l = false ->
      Gcp.main cfg server c
      = (Login :: flat_map published d1 ++ [UpdateOrCreate n l false],
         Raise unit Py.ApiError)).
Proof.
  split; [|split; [|split]].
  - intros I A server d1 n l d2 Hok Hbad.
    rewrite publish_stops_at_failure by assumption.
    split; [reflexivity|]. cbn [trace fst].
    rewrite publish_calls_app, publish_calls_published. reflexivity.
  - intros A cfg server vpc_ids batches d1 n l d2 E Hlogin Hagg Hok Hbad.
    rewrite aws_main_on_publish by exact E.
    rewrite Hlogin, Hagg, publish_stops_at_failure by assumption.
    reflexivity.
  - intros A cfg server c d1 n l d2 E Hlogin Hne Hagg Hok Hbad.
    rewrite azure_main_publish by assumption.
    rewrite Hlogin, Hagg, publish_stops_at_failure by assumption.
    split; [reflexivity|]. cbn [trace fst publish_calls].
    rewrite !publish_calls_app, publish_calls_map_text.
    rewrite publish_calls_published. reflexivity.
  - intros A cfg server c d1 n l d2 E Hlogin Hagg Hok Hbad.
    rewrite gcp_main_publish by exact E.
    rewrite Hlogin, Hagg, publish_stops_at_failure by assumption.
    reflexivity.
Qed.

Lemma publish_failure_ends_the_run_witness :
  publish (I:=unit) (refusing "team_infra")
          ([("env_prod", ["10.0.0.1"])]
             ++ ("team_infra", ["10.0.0.1"]) :: [("zone_a", ["10.0.0.5"])])
  = ([UpdateOrCreate "env_prod" ["10.0.0.1"] false;
      PrintOperated "env_prod";
      UpdateOrCreate "team_infra" ["10.0.0.1"] false],
     Raise unit Py.ApiError).
Proof.
  destruct publish_failure_ends_the_run as [Hloop _].
  apply (Hloop unit string (refusing "team_infra")
               [("env_prod", ["10.0.0.1"])] "team_infra" ["10.0.0.1"]
               [("zone_a", ["10.0.0.5"])]).
  - intros n' l' [[= <- <-]|[]]. reflexivity.
  - reflexivity.
Defined.

(** ** Instances without addresses *)

(** C9 fails on the GCP script. [list_all_instances] creates the host record
    with the key ['private_addresses'] but collects the addresses, and the
    aggregation reads them, under ['private_address']; for an instance
    without network interface that key is missing, [host.get] gives [None],
    and [extend(None)] raises [TypeError] at the first label. The same
    instance with one interface is aggregated. *)
Theorem gcp_instance_without_interface_raises :
  Gcp.private_address (Gcp.hostdata Sample.gcp_unbound) = None /\
  Gcp.aggregate (I:=unit)
    (Gcp.list_all_instances (Sample.gcp_cloud [Sample.gcp_unbound]))
  = ([], Raise _ Py.TypeError) /\
  Gcp.main {| Gcp.zone := None; Gcp.report_only := true |} obliging
           (Sample.gcp_cloud [Sample.gcp_unbound])
  = ([PrintData (Gcp.list_all_instances (Sample.gcp_cloud [Sample.gcp_unbound]))],
     Raise unit Py.TypeError) /\
  Gcp.aggregate (I:=unit)
    (Gcp.list_all_instances (Sample.gcp_cloud [Sample.gcp_bound]))
  = ([], Ok [("env_prod", ["10.128.0.2"])]).
Proof. repeat split; reflexivity. Qed.

Section NeutralFacts.

Context {A : Type}.
Implicit Types (d : @iplists A).

(** In the AWS and Azure scripts an instance without addresses adds no
    address to any group. *)
Lemma aws_azure_instance_without_addresses :
  (forall cfg d (i : Aws.instance (A:=A)) g,
      Aws.private_address i = [] ->
      addresses_of g (Aws.aggregate_instance cfg d i) = addresses_of g d) /\
  (forall d (value : Azure.vm_d (A:=A)) g,
      Azure.private_address value = [] ->
      addresses_of g (Azure.aggregate_vm d value) = addresses_of g d).
Proof.
  split.
  - intros cfg d i g E. destruct (Aws.tags i) as [|t r] eqn:Et.
    + rewrite aws_aggregate_instance_untagged, E by exact Et.
      apply addresses_setdefault_extend_nil.
    + rewrite aws_aggregate_instance_tagged, E by congruence.
      rewrite addresses_extend_all, concat_repeat_nil. apply app_nil_r.
  - intros d value g E. rewrite azure_aggregate_vm_names, E.
    rewrite addresses_extend_all, concat_repeat_nil. apply app_nil_r.
Qed.

(** The addresses that a step leaves in a group depend on the aggregate
    before the step only through the addresses of its groups. *)
Lemma aws_aggregate_instance_addresses cfg d d' (i : Aws.instance (A:=A)) :
  (forall g, addresses_of g d = addresses_of g d') ->
  forall g, addresses_of g (Aws.aggregate_instance cfg d i) =
            addresses_of g (Aws.aggregate_instance cfg d' i).
Proof.
  intros H g. destruct (Aws.tags i) as [|t r] eqn:Et.
  - rewrite !aws_aggregate_instance_untagged by exact Et.
    destruct (string_dec (Aws.fallback_name cfg i) g) as [<-|Hne].
    + rewrite !addresses_setdefault_extend_same. now rewrite H.
    + rewrite !addresses_setdefault_extend_other by exact Hne. apply H.
  - rewrite !aws_aggregate_instance_tagged by congruence.
    rewrite !addresses_extend_all. now rewrite H.
Qed.

(** AWS: the addresses of every group are what they would be if the
    instance without addresses were not in the inventory. *)
Lemma aws_inventory_without_empty_instance cfg l1 (i : Aws.instance (A:=A)) l2 :
  Aws.private_address i = [] ->
  forall g,
    addresses_of g (Aws.aggregate cfg [l1 ++ i :: l2]) =
    addresses_of g (Aws.aggregate cfg [l1 ++ l2]).
Proof.
  intros E. unfold Aws.aggregate. cbn [fold_left].
  rewrite !fold_left_app. cbn [fold_left].
  assert (H : forall g,
             addresses_of g (Aws.aggregate_instance cfg
                               (fold_left (Aws.aggregate_instance cfg) l1
                                          Dict.empty) i) =
             addresses_of g (fold_left (Aws.aggregate_instance cfg) l1
                                       Dict.empty)).
  { intros g. now apply (proj1 aws_azure_instance_without_addresses). }
  revert H.
  generalize (Aws.aggregate_instance cfg
                (fold_left (Aws.aggregate_instance cfg) l1 Dict.empty) i).
  generalize (fold_left (Aws.aggregate_instance cfg) l1
                        (@Dict.empty (list A))).
  induction l2 as [|j r IH]; intros d d' H; [exact H|].
  cbn [fold_left]. apply IH. intros g.
  now apply aws_aggregate_instance_addresses.
Qed.

(** GCP: any instance that has a label and no interface stops the
    aggregation. *)
Lemma gcp_unbound_instance_raises {I : Type} d (i : Gcp.raw_instance (A:=A)) :
  Gcp.network_interfaces i = [] -> Gcp.labels i <> [] ->
  Gcp.aggregate_host (I:=I) d (Gcp.hostdata i) = raise Py.TypeError.
Proof.
  intros E Hne. apply gcp_aggregate_host_unbound; [|exact Hne].
  rewrite gcp_hostdata_private_address, E. reflexivity.
Qed.

End NeutralFacts.

(** ** The zone listing (GCP) *)

(** C10. When [--zone] is given (as a non-empty string, the test being
    [if config.zone]), the inventory is the pager of [list_instances] and not
    a zone-keyed dict; [instances.items()] raises before any group is built,
    so the run ends in an exception without having printed an aggregate or
    issued a publish call. A run that issues a publish call is a run without
    [--zone], whose inventory is the zone-keyed dict. An empty [--zone]
    string is read as no zone at all. *)
Theorem gcp_zone_run_fails :
  (forall (A : Type) cfg (server : smc A) (c : Gcp.cloud),
      Py.truthy_opt (Gcp.zone cfg) = true ->
      (exists z, Gcp.inventory_of cfg c = Gcp.InstancePager (Gcp.zone_listing c z)) /\
      Gcp.aggregate (I:=Gcp.inventory (A:=A)) (Gcp.inventory_of cfg c)
      = raise Py.TypeError /\
      publish_calls (trace (Gcp.main cfg server c)) = [] /\
      printed_aggregates (trace (Gcp.main cfg server c)) = [] /\
      exists e, outcome (Gcp.main cfg server c) = Raise unit e) /\
  (forall (A : Type) cfg (server : smc A) (c : Gcp.cloud),
      publish_calls (trace (Gcp.main cfg server c)) <> [] ->
      Py.truthy_opt (Gcp.zone cfg) = false /\
      exists all_instances,
        Gcp.inventory_of cfg c = Gcp.ZoneMapping all_instances) /\
  (forall (A : Type) report (c : Gcp.cloud (A:=A)),
      Gcp.inventory_of {| Gcp.zone := Some ""; Gcp.report_only := report |} c
      = Gcp.list_all_instances c /\
      Gcp.inventory_of {| Gcp.zone := None; Gcp.report_only := report |} c
      = Gcp.list_all_instances c).
Proof.
  assert (Hzone : forall (A : Type) cfg (server : smc A) (c : Gcp.cloud),
             Py.truthy_opt (Gcp.zone cfg) = true ->
             (exists z, Gcp.inventory_of cfg c
                        = Gcp.InstancePager (Gcp.zone_listing c z)) /\
             Gcp.aggregate (I:=Gcp.inventory (A:=A)) (Gcp.inventory_of cfg c)
             = raise Py.TypeError /\
             publish_calls (trace (Gcp.main cfg server c)) = [] /\
             printed_aggregates (trace (Gcp.main cfg server c)) = [] /\
             exists e, outcome (Gcp.main cfg server c) = Raise unit e).
  { intros A cfg server c Hz.
    assert (Hinv : Gcp.inventory_of cfg c
                   = Gcp.InstancePager
                       (Gcp.zone_listing c (Py.get_or (Gcp.zone cfg) ""))).
    { unfold Gcp.inventory_of. now rewrite Hz. }
    assert (Hagg : Gcp.aggregate (I:=Gcp.inventory (A:=A))
                                 (Gcp.inventory_of cfg c)
                   = raise Py.TypeError) by now rewrite Hinv.
    split; [eexists; exact Hinv|]. split; [exact Hagg|].
    destruct (Gcp.report_only cfg) eqn:E.
    - rewrite gcp_main_report, Hagg by exact E.
      repeat split. eexists. reflexivity.
    - rewrite gcp_main_publish, Hagg by exact E.
      destruct (login_ok server); repeat split; eexists; reflexivity. }
  split; [exact Hzone|]. split; [|split; reflexivity].
  intros A cfg server c Hcalls.
  destruct (Py.truthy_opt (Gcp.zone cfg)) eqn:Hz.
  - destruct (Hzone A cfg server c Hz) as [_ [_ [H _]]]. congruence.
  - split; [reflexivity|]. unfold Gcp.inventory_of. rewrite Hz.
    eexists. reflexivity.
Qed.

Lemma gcp_zone_run_fails_witness :
  Gcp.main {| Gcp.zone := Some "us-west3-b"; Gcp.report_only := false |}
           obliging (Sample.gcp_cloud [Sample.gcp_bound])
  = ([Login], Raise unit Py.TypeError) /\
  publish_calls
    (trace (Gcp.main {| Gcp.zone := Some "us-west3-b";
                        Gcp.report_only := false |}
                     obliging (Sample.gcp_cloud [Sample.gcp_bound]))) = [].
Proof.
  split; [reflexivity|].
  destruct gcp_zone_run_fails as [Hzone _].
  destruct (Hzone string
                  {| Gcp.zone := Some "us-west3-b"; Gcp.report_only := false |}
                  obliging (Sample.gcp_cloud [Sample.gcp_bound]) eq_refl)
    as [_ [_ [H _]]].
  exact H.
Defined.

(** * Further properties of the scripts *)

(** ** [str.split] and [str.join] *)

Section SplitFacts.

Variable sep : ascii.

Lemma split_not_nil s : Py.split sep s <> [].
Proof.
  destruct s as [|c r]; simpl; [discriminate|].
  destruct (Ascii.eqb c sep); [discriminate|].
  destruct (Py.split sep r); discriminate.
Qed.

Lemma join_split s : Py.join sep (Py.split sep s) = s.
Proof.
  induction s as [|c r IH]; [reflexivity|]. cbn [Py.split].
  destruct (Ascii.eqb c sep) eqn:E.
  - apply Ascii.eqb_eq in E. subst c. cbn [Py.join].
    destruct (Py.split sep r) as [|p ps] eqn:Es;
      [now apply split_not_nil in Es|].
    rewrite IH. reflexivity.
  - destruct (Py.split sep r) as [|p ps] eqn:Es;
      [now apply split_not_nil in Es|].
    rewrite <- IH. cbn [Py.join]. destruct ps; reflexivity.
Qed.

Lemma split_pieces s :
  Forall (fun p => Py.contains sep p = false) (Py.split sep s).
Proof.
  induction s as [|c r IH]; cbn [Py.split].
  - repeat constructor.
  - destruct (Ascii.eqb c sep) eqn:E.
    + constructor; [reflexivity | exact IH].
    + destruct (Py.split sep r) as [|p ps]; [repeat constructor; simpl; now rewrite E|].
      inversion IH as [|? ? Hp Hps]. subst. constructor; [|exact Hps].
      simpl. now rewrite E, Hp.
Qed.

Lemma length_split s : length (Py.split sep s) = S (Py.count sep s).
Proof.
  induction s as [|c r IH]; [reflexivity|]. cbn [Py.split Py.count].
  destruct (Ascii.eqb c sep).
  - simpl. now rewrite IH.
  - destruct (Py.split sep r) as [|p ps]; simpl in *; lia.
Qed.

Lemma split_whole a : Py.contains sep a = false -> Py.split sep a = [a].
Proof.
  induction a as [|c r IH]; [reflexivity|]. simpl. intros H.
  apply orb_false_iff in H. destruct H as [Hc Hr].
  rewrite Hc, IH by exact Hr. reflexivity.
Qed.

Lemma split_piece a b :
  Py.contains sep a = false ->
  Py.split sep (a ++ String sep b) = a :: Py.split sep b.
Proof.
  induction a as [|c r IH]; simpl; intros H.
  - now rewrite Ascii.eqb_refl.
  - apply orb_false_iff in H. destruct H as [Hc Hr].
    rewrite Hc, IH by exact Hr. reflexivity.
Qed.

Lemma last_in {X : Type} (l : list X) (d : X) : l <> [] -> In (last l d) l.
Proof.
  induction l as [|x r IH]; [congruence|]. intros _.
  destruct r as [|y r']; [now left|]. right. apply IH. discriminate.
Qed.

End SplitFacts.

(** X7. [--ec2_states]. Without the option, or with an empty value, the
    request carries the Name filter alone, so instances of every state are
    asked for. With a non-empty value it carries one more filter,
    instance-state-name, whose values are the pieces of the value between
    the commas: no piece holds a comma, there is one piece more than there
    are commas, and the pieces joined by commas give the value back. *)
Theorem ec2_states_filter :
  (forall name,
      Aws.filters name (Aws.parse_ec2_states None) = Aws.filters name [] /\
      Aws.filters name (Aws.parse_ec2_states (Some "")) = Aws.filters name [] /\
      length (Aws.filters name []) = 1 /\
      map Aws.Name (Aws.filters name []) = ["tag:Name"]) /\
  (forall name c s,
      let states := Aws.parse_ec2_states (Some (String c s)) in
      Aws.filters name states
      = Aws.filters name []
          ++ [{| Aws.Name := "instance-state-name"; Aws.Values := states |}] /\
      Py.join "," states = String c s /\
      Forall (fun p => Py.contains "," p = false) states /\
      length states = S (Py.count "," (String c s))).
Proof.
  split.
  - intros name. unfold Aws.filters. destruct (Py.truthy_opt name);
      repeat split; reflexivity.
  - intros name c s states. subst states. unfold Aws.parse_ec2_states.
    cbn [Py.truthy_opt Py.truthy_str Py.get_or].
    repeat split.
    + unfold Aws.filters.
      destruct (Py.split "," (String c s)) as [|p ps] eqn:E;
        [now apply split_not_nil in E|].
      cbn [Py.truthy_list]. destruct (Py.truthy_opt name); reflexivity.
    + apply join_split.
    + apply split_pieces.
    + apply length_split.
Qed.

(** X8. The interface id of an Azure machine. For an id of the documented
    form, [/subscriptions/S/resourceGroups/G/providers/Microsoft.Network/]
    [networkInterfaces/N] with no slash inside S, G and N, the interface name
    is N and the resource group is G. An id is refused (IndexError) exactly
    when it has fewer than four slashes; when it is accepted, neither the
    name nor the group holds a slash. *)
Theorem interface_id_parts :
  (forall sub rg nm,
      Py.contains "/" sub = false ->
      Py.contains "/" rg = false ->
      Py.contains "/" nm = false ->
      Azure.split_interface_id
        ("/subscriptions/" ++ sub ++ "/resourceGroups/" ++ rg
           ++ "/providers/Microsoft.Network/networkInterfaces/" ++ nm)%string
      = Some (nm, rg)) /\
  (forall id, Azure.split_interface_id id = None <-> Py.count "/" id < 4) /\
  (forall id n g,
      Azure.split_interface_id id = Some (n, g) ->
      Py.contains "/" n = false /\ Py.contains "/" g = false).
Proof.
  split; [|split].
  - intros sub rg nm Hsub Hrg Hnm. unfold Azure.split_interface_id.
    change ("/subscriptions/" ++ sub ++ "/resourceGroups/" ++ rg
              ++ "/providers/Microsoft.Network/networkInterfaces/" ++ nm)%string
      with ("" ++ String "/"
              ("subscriptions" ++ String "/"
                 (sub ++ String "/"
                    ("resourceGroups" ++ String "/"
                       (rg ++ String "/"
                          ("providers" ++ String "/"
                             ("Microsoft.Network" ++ String "/"
                                ("networkInterfaces" ++ String "/" nm))))))))%string.
    rewrite !split_piece by (assumption || reflexivity).
    rewrite split_whole by exact Hnm. reflexivity.
  - intros id. unfold Azure.split_interface_id.
    destruct (nth_error (Py.split "/" id) 4) eqn:E.
    + split; [discriminate|]. intros Hlt.
      assert (H : 4 < length (Py.split "/" id))
        by (apply nth_error_Some; congruence).
      rewrite length_split in H. lia.
    + split; [|reflexivity]. intros _. apply nth_error_None in E.
      rewrite length_split in E. lia.
  - intros id n g. unfold Azure.split_interface_id.
    destruct (nth_error (Py.split "/" id) 4) as [r|] eqn:E; [|discriminate].
    intros [= <- <-].
    assert (Hall := split_pieces "/" id).
    rewrite Forall_forall in Hall. split.
    + apply Hall. apply last_in. apply split_not_nil.
    + apply Hall. eapply nth_error_In. exact E.
Qed.

Lemma interface_id_parts_witness :
  Azure.split_interface_id
    "/subscriptions/YOUR_SUBSCRIPTION_ID/resourceGroups/Hosts_Resources/providers/Microsoft.Network/networkInterfaces/windows152_z1"
  = Some ("windows152_z1", "Hosts_Resources") /\
  Py.contains "/" "windows152_z1" = false.
Proof.
  destruct interface_id_parts as [Hform [_ Hparts]]. split.
  - apply (Hform "YOUR_SUBSCRIPTION_ID" "Hosts_Resources" "windows152_z1");
      reflexivity.
  - apply (Hparts "/a/b/c/Hosts_Resources/windows152_z1"
                  "windows152_z1" "Hosts_Resources" eq_refl).
Defined.

(** ** Names and tags of the AWS records *)

Section NameFacts.

Lemma fold_left_ext_in {X S : Type} (f g : S -> X -> S) (l : list X) (s : S) :
  (forall s x, In x l -> f s x = g s x) ->
  fold_left f l s = fold_left g l s.
Proof.
  revert s. induction l as [|x r IH]; intros s H; [reflexivity|].
  cbn [fold_left]. rewrite (H s x) by now left.
  apply IH. intros s' y Hy. apply H. now right.
Qed.

Lemma instance_name_skips tags acc :
  (forall t, In t tags -> Aws.is_name_tag t = false) ->
  fold_left (fun acc tag => if Aws.is_name_tag tag then Aws.Value tag else acc)
            tags acc = acc.
Proof.
  revert acc. induction tags as [|t r IH]; intros acc H; [reflexivity|].
  cbn [fold_left]. rewrite (H t) by now left.
  apply IH. intros t' Ht'. apply H. now right.
Qed.

Lemma instance_name_last pre t post acc :
  Aws.is_name_tag t = true ->
  (forall t', In t' post -> Aws.is_name_tag t' = false) ->
  fold_left (fun acc tag => if Aws.is_name_tag tag then Aws.Value tag else acc)
            (pre ++ t :: post) acc = Aws.Value t.
Proof.
  intros Ht Hpost. rewrite fold_left_app. cbn [fold_left]. rewrite Ht.
  now apply instance_name_skips.
Qed.

Lemma vpc_name_tag_skips tags :
  (forall t, In t tags -> Aws.is_name_tag t = false) ->
  Aws.vpc_name_tag tags = None.
Proof.
  induction tags as [|t r IH]; intros H; [reflexivity|].
  cbn [Aws.vpc_name_tag]. rewrite (H t) by now left.
  apply IH. intros t' Ht'. apply H. now right.
Qed.

Lemma vpc_name_tag_first pre t post :
  Aws.is_name_tag t = true ->
  (forall t', In t' pre -> Aws.is_name_tag t' = false) ->
  Aws.vpc_name_tag (pre ++ t :: post) = Aws.Value t.
Proof.
  intros Ht. induction pre as [|p r IH]; intros Hpre.
  - cbn [app Aws.vpc_name_tag]. now rewrite Ht.
  - cbn [app Aws.vpc_name_tag]. rewrite (Hpre p) by now left.
    apply IH. intros t' Ht'. apply Hpre. now right.
Qed.

Lemma display_name_not_empty (found : option string) :
  (if Py.truthy_opt found then Py.get_or found "" else "Unknown") <> "".
Proof. destruct found as [[|c s]|]; discriminate. Qed.

Lemma filter_none {X : Type} (f : X -> bool) (l : list X) :
  (forall x, In x l -> f x = false) -> filter f l = [].
Proof.
  induction l as [|x r IH]; intros H; [reflexivity|]. simpl.
  rewrite (H x) by now left. apply IH. intros y Hy. apply H. now right.
Qed.

End NameFacts.

(** X1. The name of an EC2 instance. The name built by [describe_instances]
    is never empty. It is "Unknown" when the instance has no Name tag;
    otherwise it is the value of the last Name tag of the list, or "Unknown"
    when that value is missing or empty. *)
Theorem instance_name_resolution :
  (forall (A : Type) (i : Aws.raw_instance (A:=A)),
      Aws.name (Aws.normalize i) <> "") /\
  (forall (A : Type) (i : Aws.raw_instance (A:=A)),
      (forall t, In t (Aws.Tags i) -> Aws.is_name_tag t = false) ->
      Aws.name (Aws.normalize i) = "Unknown") /\
  (forall (A : Type) (i : Aws.raw_instance (A:=A)) pre v post,
      Aws.Tags i = pre ++ {| Aws.Key := Some "Name"; Aws.Value := v |} :: post ->
      (forall t, In t post -> Aws.is_name_tag t = false) ->
      Aws.name (Aws.normalize i)
      = if Py.truthy_opt v then Py.get_or v "" else "Unknown").
Proof.
  split; [|split].
  - intros A i. apply display_name_not_empty.
  - intros A i H. unfold Aws.normalize. cbn [Aws.name].
    now rewrite instance_name_skips.
  - intros A i pre v post E H. unfold Aws.normalize. cbn [Aws.name].
    rewrite E, instance_name_last by (reflexivity || exact H). reflexivity.
Qed.

Lemma instance_name_resolution_witness :
  Aws.name (Aws.normalize (Sample.aws_raw "vm1" "prod" "10.0.0.1")) = "vm1" /\
  Aws.name (Aws.normalize Sample.aws_raw_unnamed) = "Unknown".
Proof.
  destruct instance_name_resolution as [_ [Hnone Hlast]]. split.
  - apply (Hlast string (Sample.aws_raw "vm1" "prod" "10.0.0.1") []
                 (Some "vm1")
                 [{| Aws.Key := Some "env"; Aws.Value := Some "prod" |}]
                 eq_refl).
    intros t [<-|[]]. reflexivity.
  - apply Hnone. intros t [<-|[]]. reflexivity.
Defined.

(** X2. The name of a VPC. The name built by [describe_vpcs] is never
    empty. It is "Unknown" when the VPC has no Name tag; otherwise the loop
    stops at the first Name tag, and the name is the value of that tag, or
    "Unknown" when that value is missing or empty, whatever Name tags come
    after it. *)
Theorem vpc_name_resolution :
  (forall page, Aws.vpc_name (Aws.normalize_vpc page) <> "") /\
  (forall page,
      (forall t, In t (Aws.VpcTags page) -> Aws.is_name_tag t = false) ->
      Aws.vpc_name (Aws.normalize_vpc page) = "Unknown") /\
  (forall page pre v post,
      Aws.VpcTags page
      = pre ++ {| Aws.Key := Some "Name"; Aws.Value := v |} :: post ->
      (forall t, In t pre -> Aws.is_name_tag t = false) ->
      Aws.vpc_name (Aws.normalize_vpc page)
      = if Py.truthy_opt v then Py.get_or v "" else "Unknown").
Proof.
  split; [|split].
  - intros page. apply display_name_not_empty.
  - intros page H. unfold Aws.normalize_vpc. cbn [Aws.vpc_name].
    now rewrite vpc_name_tag_skips.
  - intros page pre v post E H. unfold Aws.normalize_vpc. cbn [Aws.vpc_name].
    rewrite E, vpc_name_tag_first by (reflexivity || exact H). reflexivity.
Qed.

Lemma vpc_name_resolution_witness :
  Aws.vpc_name (Aws.normalize_vpc Sample.vpc_two_names) = "Unknown" /\
  Aws.vpc_name (Aws.normalize_vpc Sample.vpc_unnamed) = "Unknown".
Proof.
  destruct vpc_name_resolution as [_ [Hnone Hfirst]]. split.
  - apply (Hfirst Sample.vpc_two_names
                  [{| Aws.Key := Some "team"; Aws.Value := Some "infra" |}]
                  (Some "")
                  [{| Aws.Key := Some "Name"; Aws.Value := Some "main" |}]
                  eq_refl).
    intros t [<-|[]]. reflexivity.
  - apply Hnone. intros t [<-|[]]. reflexivity.
Defined.

(** ** What a scan leaves in each group *)

Section ScanFacts.

Context {A X : Type}.
Variables (names : X -> list string) (addrs : X -> list A).

Lemma in_concat_repeat (a : A) (l : list A) (k : nat) :
  In a (concat (repeat l k)) <-> 0 < k /\ In a l.
Proof.
  induction k as [|k IH]; simpl.
  - split; [tauto | intros [H _]; lia].
  - rewrite in_app_iff, IH. split; [|tauto].
    intros [H|[_ H]]; split; auto; lia.
Qed.

Lemma in_deliveries (a : A) g ns (l : list A) :
  In a (deliveries g ns l) <-> In g ns /\ In a l.
Proof.
  unfold deliveries. rewrite in_concat_repeat.
  rewrite (count_occ_In string_dec ns g). unfold gt. tauto.
Qed.

Lemma addresses_scan (l : list X) (d : @iplists A) g :
  addresses_of g (fold_left (fun d i => extend_all (names i) (addrs i) d) l d)
  = addresses_of g d
      ++ flat_map (fun i => deliveries g (names i) (addrs i)) l.
Proof.
  revert d. induction l as [|i r IH]; intros d; cbn [fold_left flat_map].
  - now rewrite app_nil_r.
  - rewrite IH, addresses_extend_all. unfold deliveries.
    now rewrite <- app_assoc.
Qed.

Lemma keys_scan (l : list X) (d : @iplists A) g :
  In g (Dict.keys (fold_left (fun d i => extend_all (names i) (addrs i) d) l d))
  <-> In g (Dict.keys d) \/ exists i, In i l /\ In g (names i).
Proof.
  revert d. induction l as [|i r IH]; intros d; cbn [fold_left].
  - split; [tauto|]. intros [H|[i [[] _]]]. exact H.
  - rewrite IH, in_keys_extend_all. split.
    + intros [[H|H]|[j [Hj Hg]]].
      * right. exists i. split; [now left | exact H].
      * now left.
      * right. exists j. split; [now right | exact Hg].
    + intros [H|[j [[<-|Hj] Hg]]].
      * left. now right.
      * left. now left.
      * right. exists j. tauto.
Qed.

Lemma nodup_scan (l : list X) (d : @iplists A) :
  NoDup (Dict.keys d) ->
  NoDup (Dict.keys
           (fold_left (fun d i => extend_all (names i) (addrs i) d) l d)).
Proof.
  revert d. induction l as [|i r IH]; intros d Hnd; [exact Hnd|].
  cbn [fold_left]. apply IH. now apply nodup_extend_all.
Qed.

(** The three facts about a scan that starts from the empty aggregate. *)
Lemma scan_content (l : list X) g :
  let d := fold_left (fun d i => extend_all (names i) (addrs i) d) l
                     (@Dict.empty (list A)) in
  addresses_of g d = flat_map (fun i => deliveries g (names i) (addrs i)) l /\
  (forall a, In a (addresses_of g d) <->
             exists i, In i l /\ In g (names i) /\ In a (addrs i)) /\
  (In g (Dict.keys d) <-> exists i, In i l /\ In g (names i)).
Proof.
  intros d. subst d.
  assert (H : addresses_of g
                (fold_left (fun d i => extend_all (names i) (addrs i) d) l
                           (@Dict.empty (list A)))
              = flat_map (fun i => deliveries g (names i) (addrs i)) l)
    by (rewrite addresses_scan; reflexivity).
  split; [exact H|]. split.
  - intros a. rewrite H, in_flat_map. split.
    + intros [i [Hi Ha]]. apply in_deliveries in Ha. exists i. tauto.
    + intros [i [Hi [Hg Ha]]]. exists i. split; [exact Hi|].
      apply in_deliveries. tauto.
  - rewrite keys_scan. simpl. tauto.
Qed.

End ScanFacts.

Section GroupFacts.

Context {A : Type}.

Lemma aws_aggregate_instance_names cfg (d : @iplists A) (i : Aws.instance) :
  Aws.aggregate_instance cfg d i
  = extend_all (Aws.group_names cfg i) (Aws.private_address i) d.
Proof.
  unfold Aws.group_names. destruct (Aws.tags i) as [|t r] eqn:E.
  - now rewrite aws_aggregate_instance_untagged.
  - rewrite aws_aggregate_instance_tagged by congruence. now rewrite E.
Qed.

Lemma aws_aggregate_scan cfg (batches : list (list (Aws.instance (A:=A)))) :
  Aws.aggregate cfg batches
  = fold_left (fun d i => extend_all (Aws.group_names cfg i)
                                     (Aws.private_address i) d)
              (concat batches) Dict.empty.
Proof.
  rewrite aws_aggregate_concat. apply fold_left_ext_in.
  intros d i _. apply aws_aggregate_instance_names.
Qed.

Lemma azure_aggregate_scan (result : Dict.t (list (Azure.vm_d (A:=A)))) :
  Azure.aggregate result
  = fold_left (fun d v => extend_all (Azure.group_names v)
                                     (Azure.private_address v) d)
              (Azure.machines_of result) Dict.empty.
Proof.
  unfold Azure.aggregate, Azure.machines_of, Dict.items.
  generalize (@Dict.empty (list A)) as d.
  induction result as [|[s values] r IH]; intros d; [reflexivity|].
  cbn [fold_left flat_map snd]. rewrite fold_left_app, IH. f_equal.
  apply fold_left_ext_in. intros d' v _. apply azure_aggregate_vm_names.
Qed.

End GroupFacts.

(** X3. AWS, from the listing to the group. An instance whose tags are all
    Name tags (or that has none) is grouped as untagged: alone in the
    inventory it gives one group, the [--untagged_group] name when a
    non-empty one is given and otherwise "untagged-aws-" followed by its
    availability zone, "unknown" when the listing gives no placement; the
    group holds the private addresses of all its interfaces in order. An
    instance with some other tag feeds the groups named by its tags that are
    not Name tags, one name per such tag in order, and the fallback name is
    not computed for it. *)
Theorem aws_raw_instance_groups :
  (forall (A : Type) cfg (i : Aws.raw_instance (A:=A)),
      (forall t, In t (Aws.Tags i) -> Aws.is_name_tag t = true) ->
      Aws.aggregate cfg [[Aws.normalize i]]
      = [(match Aws.untagged_group cfg with
          | Some (String c s) => String c s
          | _ => ("untagged-aws-"
                    ++ Py.get_or (Aws.AvailabilityZone i) "unknown")%string
          end,
          concat (Aws.NetworkInterfaces i))]) /\
  (forall (A : Type) cfg (i : Aws.raw_instance (A:=A)) t,
      In t (Aws.Tags i) -> Aws.is_name_tag t = false ->
      Aws.group_names cfg (Aws.normalize i)
      = map Aws.group_name
            (filter (fun tag => negb (Aws.is_name_tag tag)) (Aws.Tags i)) /\
      In (Aws.group_name t) (Aws.group_names cfg (Aws.normalize i))).
Proof.
  split.
  - intros A cfg i Hall.
    assert (E : Aws.tags (Aws.normalize i) = []).
    { unfold Aws.normalize. cbn [Aws.tags]. apply filter_none.
      intros t Ht. now rewrite (Hall t Ht). }
    unfold Aws.aggregate. cbn [fold_left].
    rewrite aws_aggregate_instance_untagged by exact E.
    rewrite (setdefault_extend_fresh _ _ (@Dict.empty (list A)))
      by (simpl; tauto).
    rewrite aws_fallback_name. reflexivity.
  - intros A cfg i t Hin Hname.
    assert (Hf : In t (filter (fun tag => negb (Aws.is_name_tag tag))
                              (Aws.Tags i)))
      by (apply filter_In; split; [exact Hin | now rewrite Hname]).
    unfold Aws.group_names, Aws.normalize. cbn [Aws.tags].
    destruct (filter (fun tag => negb (Aws.is_name_tag tag)) (Aws.Tags i))
      as [|t0 r] eqn:E; [destruct Hf|].
    cbn [Py.truthy_list]. split; [reflexivity|]. now apply in_map.
Qed.

Lemma aws_raw_instance_groups_witness :
  Aws.aggregate (Sample.aws_config false)
                [[Aws.normalize Sample.aws_raw_name_only]]
  = [("untagged-aws-unknown", ["10.0.0.8"; "10.0.1.8"])] /\
  Aws.group_names (Sample.aws_config false)
                  (Aws.normalize (Sample.aws_raw "vm1" "prod" "10.0.0.1"))
  = ["env_prod"].
Proof.
  destruct aws_raw_instance_groups as [Hname Hother]. split.
  - apply (Hname string (Sample.aws_config false) Sample.aws_raw_name_only).
    intros t [<-|[]]. reflexivity.
  - apply (Hother string (Sample.aws_config false)
                  (Sample.aws_raw "vm1" "prod" "10.0.0.1")
                  {| Aws.Key := Some "env"; Aws.Value := Some "prod" |}).
    + right. left. reflexivity.
    + reflexivity.
Defined.

(** X4. The content of the AWS aggregate. For every group name, the list
    of the group is the concatenation, in the order of the scan over all the
    pages, of what each instance delivers to it: its whole address list once
    for each of its group names equal to that name. Hence an address is in a
    group exactly when some instance that has this address feeds this group,
    and a group exists exactly when some instance feeds it. *)
Theorem aws_group_content :
  forall (A : Type) cfg (batches : list (list (Aws.instance (A:=A)))) g,
    addresses_of g (Aws.aggregate cfg batches)
    = flat_map (fun i => deliveries g (Aws.group_names cfg i)
                                    (Aws.private_address i))
               (concat batches) /\
    (forall a, In a (addresses_of g (Aws.aggregate cfg batches)) <->
               exists i, In i (concat batches) /\
                         In g (Aws.group_names cfg i) /\
                         In a (Aws.private_address i)) /\
    (In g (Dict.keys (Aws.aggregate cfg batches)) <->
     exists i, In i (concat batches) /\ In g (Aws.group_names cfg i)).
Proof.
  intros A cfg batches g. rewrite aws_aggregate_scan.
  apply (scan_content (Aws.group_names cfg) (@Aws.private_address A)).
Qed.

(** X5. The content of the Azure aggregate: the same, over the machines of
    all the subscriptions in the order of the scan. Subscriptions do not
    separate groups: the aggregate depends on the machines and their order
    only. *)
Theorem azure_group_content :
  forall (A : Type) (result : Dict.t (list (Azure.vm_d (A:=A)))) g,
    addresses_of g (Azure.aggregate result)
    = flat_map (fun v => deliveries g (Azure.group_names v)
                                    (Azure.private_address v))
               (Azure.machines_of result) /\
    (forall a, In a (addresses_of g (Azure.aggregate result)) <->
               exists v, In v (Azure.machines_of result) /\
                         In g (Azure.group_names v) /\
                         In a (Azure.private_address v)) /\
    (In g (Dict.keys (Azure.aggregate result)) <->
     exists v, In v (Azure.machines_of result) /\ In g (Azure.group_names v)) /\
    (forall result',
        Azure.machines_of result' = Azure.machines_of result ->
        Azure.aggregate result' = Azure.aggregate result).
Proof.
  intros A result g.
  assert (H := scan_content (@Azure.group_names A) (@Azure.private_address A)
                            (Azure.machines_of result) g).
  cbv zeta in H. rewrite <- azure_aggregate_scan in H.
  destruct H as [H1 [H2 H3]]. repeat split; try assumption;
    try (apply H2); try (apply H3).
  intros result' E. rewrite !azure_aggregate_scan. now rewrite E.
Qed.

Lemma azure_group_content_witness :
  Azure.aggregate [("s1", [Sample.azure_windows]);
                   ("s2", [Sample.azure_two_tags_one_name])]
  = Azure.aggregate [("s", [Sample.azure_windows;
                            Sample.azure_two_tags_one_name])].
Proof.
  destruct (azure_group_content
              [("s", [Sample.azure_windows; Sample.azure_two_tags_one_name])]
              "app_web_1") as [_ [_ [_ Hsame]]].
  apply Hsame. reflexivity.
Defined.

Lemma flat_map_ext_in {X Y : Type} (f g : X -> list Y) (l : list X) :
  (forall x, In x l -> f x = g x) -> flat_map f l = flat_map g l.
Proof.
  induction l as [|x r IH]; intros H; [reflexivity|]. cbn [flat_map].
  rewrite (H x) by now left. f_equal. apply IH. intros y Hy. apply H.
  now right.
Qed.

Lemma deliveries_other {A : Type} g n (addrs : list A) :
  g <> n -> deliveries g [n] addrs = [].
Proof.
  intros Hne. unfold deliveries. cbn [count_occ].
  destruct (string_dec n g) as [E|_]; [congruence | reflexivity].
Qed.

(** X6. What [--untagged_group] bears on, for one and the same sequence of
    pages of instances aggregated under two command lines. A group whose
    name is not the fallback name of an untagged instance under either
    command line holds the same addresses under both; and when every
    instance of the pages has a tag, the whole aggregate is the same, group
    for group and in the same order. *)
Theorem untagged_group_option_scope :
  (forall (A : Type) cfg cfg' (batches : list (list (Aws.instance (A:=A)))) g,
      (forall i, In i (concat batches) -> Aws.tags i = [] ->
                 g <> Aws.fallback_name cfg i /\
                 g <> Aws.fallback_name cfg' i) ->
      addresses_of g (Aws.aggregate cfg batches)
      = addresses_of g (Aws.aggregate cfg' batches)) /\
  (forall (A : Type) cfg cfg' (batches : list (list (Aws.instance (A:=A)))),
      (forall i, In i (concat batches) -> Aws.tags i <> []) ->
      Aws.aggregate cfg batches = Aws.aggregate cfg' batches).
Proof.
  split.
  - intros A cfg cfg' batches g H. rewrite !aws_aggregate_scan.
    rewrite !addresses_scan. f_equal. apply flat_map_ext_in.
    intros i Hi. unfold Aws.group_names.
    destruct (Aws.tags i) as [|t r] eqn:Et; [|reflexivity].
    cbn [Py.truthy_list]. destruct (H i Hi Et) as [H1 H2].
    now rewrite !deliveries_other.
  - intros A cfg cfg' batches H. rewrite !aws_aggregate_concat.
    apply fold_left_ext_in. intros d i Hi.
    now rewrite !aws_aggregate_instance_tagged by now apply H.
Qed.

Lemma untagged_group_option_scope_witness :
  addresses_of "env_prod"
    (Aws.aggregate {| Aws.page_size := 5; Aws.skip_vpc_discovery := true;
                      Aws.untagged_group := Some "lostandfound";
                      Aws.report_only := false |}
                   [[Sample.aws_vm1; Sample.aws_vm2]])
  = addresses_of "env_prod"
      (Aws.aggregate (Sample.aws_config false)
                     [[Sample.aws_vm1; Sample.aws_vm2]]) /\
  Aws.aggregate {| Aws.page_size := 5; Aws.skip_vpc_discovery := true;
                   Aws.untagged_group := Some "lostandfound";
                   Aws.report_only := false |}
                [[Sample.aws_vm1]; [Sample.aws_vm1_two_tags]]
  = Aws.aggregate (Sample.aws_config false)
                  [[Sample.aws_vm1]; [Sample.aws_vm1_two_tags]].
Proof.
  destruct untagged_group_option_scope as [Hgroup Htagged]. split.
  - apply Hgroup. intros i [<-|[<-|[]]] E; [discriminate|].
    split; discriminate.
  - apply Htagged. intros i [<-|[<-|[]]]; discriminate.
Defined.

(** ** Azure: subscriptions *)

Section SubscriptionFacts.

Context {A : Type}.

Lemma keys_set {V : Type} k (v : V) (d : Dict.t V) :
  Dict.keys (Dict.set k v d)
  = if Dict.mem k d then Dict.keys d else Dict.keys d ++ [k].
Proof.
  unfold Dict.set. destruct (Dict.mem k d).
  - apply keys_update.
  - unfold Dict.keys. now rewrite map_app.
Qed.

Lemma nodup_set {V : Type} k (v : V) (d : Dict.t V) :
  NoDup (Dict.keys d) -> NoDup (Dict.keys (Dict.set k v d)).
Proof.
  intros Hnd. rewrite keys_set. destruct (Dict.mem k d) eqn:E; [exact Hnd|].
  apply NoDup_app.
  - exact Hnd.
  - constructor; [simpl; tauto | constructor].
  - intros x Hx [<-|[]]. apply mem_keys in Hx. congruence.
Qed.

Lemma collect_from (c : Azure.cloud (A:=A)) subscriptions d s :
  NoDup (Dict.keys d) ->
  let result :=
    fold_left (fun result subscription_id =>
                 Dict.set subscription_id
                          (map Azure.get_virtual_machine_details
                               (Azure.virtual_machines_of c subscription_id))
                          result)
              subscriptions d in
  NoDup (Dict.keys result) /\
  (In s subscriptions ->
   Dict.get s result
   = Some (map Azure.get_virtual_machine_details
               (Azure.virtual_machines_of c s))) /\
  (~ In s subscriptions -> Dict.get s result = Dict.get s d).
Proof.
  revert d. induction subscriptions as [|x r IH]; intros d Hnd; cbn zeta.
  - repeat split; [exact Hnd | intros []].
  - cbn [fold_left].
    destruct (IH (Dict.set x (map Azure.get_virtual_machine_details
                                  (Azure.virtual_machines_of c x)) d)
                 (@nodup_set _ x _ d Hnd)) as [H1 [H2 H3]].
    split; [exact H1|]. split.
    + intros [->|Hin].
      * destruct (in_dec string_dec s r) as [Hr|Hr]; [now apply H2|].
        rewrite H3 by exact Hr. apply get_set_same.
      * now apply H2.
    + intros Hnin. simpl in Hnin. rewrite H3 by tauto.
      apply get_set_other. tauto.
Qed.

End SubscriptionFacts.

(** X9. Which subscriptions the Azure script scans. A non-empty
    [--subscription] is the only subscription scanned and the listing of the
    subscription client is not used; otherwise the listed subscriptions are
    scanned. Nothing is scanned exactly when the option is missing or empty
    and the listing is empty, and that is exactly when the run exits with
    status 1; all it has written then is the error line that names the
    client id and the tenant id of the environment, and it has not logged in
    to the management server. *)
Theorem azure_scanned_subscriptions :
  (forall (A : Type) cfg (c : Azure.cloud (A:=A)) ch s,
      Azure.subscription cfg = Some (String ch s) ->
      Azure.scanned_subscriptions cfg c = [String ch s]) /\
  (forall (A : Type) cfg (c : Azure.cloud (A:=A)),
      Py.truthy_opt (Azure.subscription cfg) = false ->
      Azure.scanned_subscriptions cfg c = Azure.listed_subscriptions c) /\
  (forall (A : Type) cfg (server : smc A) (c : Azure.cloud),
      (Azure.scanned_subscriptions cfg c = [] <->
       Py.truthy_opt (Azure.subscription cfg) = false /\
       Azure.listed_subscriptions c = []) /\
      (outcome (Azure.main cfg server c) = SysExit unit 1 <->
       Azure.scanned_subscriptions cfg c = []) /\
      (Azure.main cfg server c
       = ([LogError ("No subscriptions were found for client id: "
                       ++ Py.str_opt (Azure.client_id c)
                       ++ " and tenant ID: "
                       ++ Py.str_opt (Azure.tenant_id c))%string],
          SysExit unit 1) <->
       Azure.scanned_subscriptions cfg c = [])).
Proof.
  split; [|split].
  - intros A cfg c ch s E. unfold Azure.scanned_subscriptions. now rewrite E.
  - intros A cfg c E. unfold Azure.scanned_subscriptions. now rewrite E.
  - intros A cfg server c.
    assert (Hexit : outcome (Azure.main cfg server c) = SysExit unit 1 ->
                    Azure.scanned_subscriptions cfg c = []).
    { intros Hout.
      destruct (Azure.scanned_subscriptions cfg c) as [|s r] eqn:Es;
        [reflexivity|]. exfalso.
      assert (Hne : Azure.scanned_subscriptions cfg c <> [])
        by (rewrite Es; discriminate).
      destruct (Azure.report_only cfg) eqn:Er.
      - rewrite azure_main_report in Hout by assumption. discriminate.
      - rewrite azure_main_publish in Hout by assumption.
        destruct (login_ok server); [|discriminate].
        cbn [outcome snd] in Hout.
        destruct (publish_outcome
                    (I:=Dict.t (list (Azure.vm_d (A:=A)))) server
                    (Azure.aggregate
                       (Azure.collect c (Azure.scanned_subscriptions cfg c))))
          as [Ho|Ho]; rewrite Ho in Hout; discriminate. }
    split; [|split].
    + unfold Azure.scanned_subscriptions.
      destruct (Py.truthy_opt (Azure.subscription cfg)); cbn [Py.truthy_list].
      * split; [discriminate | intros [H _]; discriminate].
      * tauto.
    + split; [exact Hexit|]. intros E.
      now rewrite azure_main_no_subscription.
    + split.
      * intros E. apply Hexit. now rewrite E.
      * apply azure_main_no_subscription.
Qed.

Lemma azure_scanned_subscriptions_witness :
  Azure.scanned_subscriptions
    {| Azure.subscription := Some "sub-1"; Azure.report_only := false |}
    (Sample.azure_cloud ["sub-2"; "sub-3"] [])
  = ["sub-1"] /\
  Azure.main {| Azure.subscription := None; Azure.report_only := false |}
             obliging (Sample.azure_cloud [] [])
  = ([LogError "No subscriptions were found for client id: None and tenant ID: None"],
     SysExit unit 1).
Proof.
  destruct azure_scanned_subscriptions as [Hgiven [_ Hnone]]. split.
  - apply (Hgiven string _ _ "s"%char "ub-1"). reflexivity.
  - apply (Hnone string
                 {| Azure.subscription := None; Azure.report_only := false |}
                 obliging (Sample.azure_cloud [] [])).
    reflexivity.
Defined.

(** X10. The inventory collected by the Azure script has exactly one
    entry per scanned subscription, also when a subscription is scanned
    twice: a scanned subscription maps to the details of its machines in the
    order of the listing, and no other key is present. *)
Theorem azure_collect_lookup :
  forall (A : Type) (c : Azure.cloud (A:=A)) subscriptions s,
    NoDup (Dict.keys (Azure.collect c subscriptions)) /\
    (In s subscriptions ->
     Dict.get s (Azure.collect c subscriptions)
     = Some (map Azure.get_virtual_machine_details
                 (Azure.virtual_machines_of c s))) /\
    (~ In s subscriptions ->
     Dict.get s (Azure.collect c subscriptions) = None) /\
    (In s (Dict.keys (Azure.collect c subscriptions)) <-> In s subscriptions).
Proof.
  intros A c subscriptions s.
  destruct (@collect_from A c subscriptions Dict.empty s) as [H1 [H2 H3]];
    [constructor|].
  fold (Azure.collect c subscriptions) in H1, H2, H3.
  split; [exact H1|]. split; [exact H2|]. split; [exact H3|].
  destruct (in_dec string_dec s subscriptions) as [Hin|Hnin].
  - split; [tauto|]. intros _. apply mem_keys. unfold Dict.mem.
    now rewrite H2.
  - split; [|tauto]. intros Hk. apply mem_keys in Hk. unfold Dict.mem in Hk.
    rewrite H3 in Hk by exact Hnin. discriminate.
Qed.

Lemma azure_collect_lookup_witness :
  Dict.get "sub-1"
    (Azure.collect (Sample.azure_cloud [] []) ["sub-1"; "sub-2"; "sub-1"])
  = Some [] /\
  Dict.get "sub-3"
    (Azure.collect (Sample.azure_cloud [] []) ["sub-1"; "sub-2"; "sub-1"])
  = None.
Proof.
  split.
  - apply (azure_collect_lookup (Sample.azure_cloud [] [])
                                ["sub-1"; "sub-2"; "sub-1"] "sub-1").
    left. reflexivity.
  - apply (azure_collect_lookup (Sample.azure_cloud [] [])
                                ["sub-1"; "sub-2"; "sub-1"] "sub-3").
    simpl. intuition discriminate.
Defined.

(** ** GCP: the zone-keyed inventory and its aggregation *)

Section ZoneFacts.

Context {A : Type}.

Lemma in_keys_setdefault {V : Type} k (v : V) (d : Dict.t V) z :
  In z (Dict.keys (Dict.setdefault k v d)) <-> z = k \/ In z (Dict.keys d).
Proof.
  unfold Dict.setdefault. destruct (Dict.mem k d) eqn:E.
  - apply mem_keys in E. split; [tauto|]. intros [->|H]; assumption.
  - unfold Dict.keys. rewrite map_app, in_app_iff. simpl.
    split; intros H; intuition congruence.
Qed.

Lemma nodup_setdefault {V : Type} k (v : V) (d : Dict.t V) :
  NoDup (Dict.keys d) -> NoDup (Dict.keys (Dict.setdefault k v d)).
Proof.
  intros Hnd. unfold Dict.setdefault. destruct (Dict.mem k d) eqn:E;
    [exact Hnd|].
  unfold Dict.keys. rewrite map_app. cbn [map fst]. apply NoDup_app.
  - exact Hnd.
  - constructor; [simpl; tauto | constructor].
  - intros x Hx [<-|[]]. apply mem_keys in Hx. congruence.
Qed.

Lemma addresses_setdefault_nil {V : Type} k (d : Dict.t (list V)) z :
  addresses_of z (Dict.setdefault k [] d) = addresses_of z d.
Proof.
  unfold addresses_of, Dict.setdefault. destruct (Dict.mem k d) eqn:E;
    [reflexivity|].
  rewrite get_app. destruct (Dict.get z d) eqn:Ez; [reflexivity|]. simpl.
  destruct (String.eqb z k); reflexivity.
Qed.

(** The loop over the instances of one (zone, instances) pair. *)
Lemma zone_page (zone : string) (instances : list (Gcp.raw_instance (A:=A)))
      (d : Dict.t (list (Gcp.host (A:=A)))) :
  let d' :=
    fold_left (fun d i =>
                 Dict.update zone (fun l => l ++ [Gcp.hostdata i])
                             (Dict.setdefault zone [] d))
              instances d in
  (NoDup (Dict.keys d) -> NoDup (Dict.keys d')) /\
  (forall z, In z (Dict.keys d') <->
             (z = zone /\ instances <> []) \/ In z (Dict.keys d)) /\
  (forall z, addresses_of z d'
             = addresses_of z d
                 ++ if String.eqb z zone then map Gcp.hostdata instances
                    else []).
Proof.
  revert d. induction instances as [|i r IH]; intros d; cbn zeta;
    cbn [fold_left].
  - split; [tauto|]. split.
    + intros z. split; [tauto|].
      intros [[_ H]|H]; [now contradiction H | exact H].
    + intros z. destruct (String.eqb z zone); now rewrite app_nil_r.
  - destruct (IH (Dict.update zone (fun l => l ++ [Gcp.hostdata i])
                              (Dict.setdefault zone [] d)))
      as [H1 [H2 H3]].
    change (Dict.update zone (fun l => l ++ [Gcp.hostdata i])
                        (Dict.setdefault zone [] d))
      with (setdefault_extend zone [Gcp.hostdata i] d) in *.
    split; [|split].
    + intros Hnd. apply H1. now apply nodup_setdefault_extend.
    + intros z. rewrite H2, in_keys_setdefault_extend. split.
      * intros [[Hz _]|[Hz|H]];
          [left; split; [exact Hz | discriminate]
          |left; split; [exact Hz | discriminate]
          |right; exact H].
      * intros [[Hz _]|H]; right; [left; exact Hz | right; exact H].
    + intros z. rewrite H3. destruct (String.eqb z zone) eqn:E.
      * apply String.eqb_eq in E. subst z.
        rewrite addresses_setdefault_extend_same. cbn [map].
        now rewrite <- app_assoc.
      * apply String.eqb_neq in E.
        rewrite addresses_setdefault_extend_other by congruence.
        reflexivity.
Qed.

(** The loop over the pairs of the aggregated listing, from any dict. *)
Lemma zone_pages (pages : list (string * list (Gcp.raw_instance (A:=A))))
      (d : Dict.t (list (Gcp.host (A:=A)))) :
  let d' :=
    fold_left
      (fun all_instances '(zone, instances) =>
         if Py.truthy_list instances then
           fold_left (fun d i =>
                        Dict.update zone (fun l => l ++ [Gcp.hostdata i])
                                    (Dict.setdefault zone [] d))
                     instances (Dict.setdefault zone [] all_instances)
         else all_instances)
      pages d in
  (NoDup (Dict.keys d) -> NoDup (Dict.keys d')) /\
  (forall z, In z (Dict.keys d') <->
             Gcp.instances_in_zone pages z <> [] \/ In z (Dict.keys d)) /\
  (forall z, addresses_of z d'
             = addresses_of z d
                 ++ map Gcp.hostdata (Gcp.instances_in_zone pages z)).
Proof.
  revert d. induction pages as [|[zone instances] r IH]; intros d; cbn zeta.
  - cbn [fold_left Gcp.instances_in_zone flat_map map]. split; [tauto|].
    split; intros z; [tauto | now rewrite app_nil_r].
  - cbn [fold_left]. unfold Gcp.instances_in_zone in *.
    cbn [flat_map fst snd].
    destruct instances as [|i0 rest] eqn:Ei.
    + cbn [Py.truthy_list]. destruct (IH d) as [H1 [H2 H3]].
      split; [exact H1|]. split; intros z.
      * rewrite H2. destruct (String.eqb z zone); reflexivity.
      * rewrite H3. destruct (String.eqb z zone); reflexivity.
    + cbn [Py.truthy_list]. rewrite <- Ei.
      destruct (zone_page zone instances (Dict.setdefault zone [] d))
        as [P1 [P2 P3]].
      destruct (IH (fold_left
                      (fun d i =>
                         Dict.update zone (fun l => l ++ [Gcp.hostdata i])
                                     (Dict.setdefault zone [] d))
                      instances (Dict.setdefault zone [] d)))
        as [H1 [H2 H3]].
      split; [|split].
      * intros Hnd. apply H1, P1. now apply nodup_setdefault.
      * intros z. rewrite H2, P2, in_keys_setdefault.
        destruct (String.eqb z zone) eqn:E.
        -- apply String.eqb_eq in E. subst z. split; [intros _|].
           ++ left. rewrite Ei. discriminate.
           ++ intros _. right. left. split; [reflexivity|].
              rewrite Ei. discriminate.
        -- apply String.eqb_neq in E. cbn [app]. tauto.
      * intros z. rewrite H3, P3, addresses_setdefault_nil.
        rewrite map_app, <- app_assoc.
        destruct (String.eqb z zone); reflexivity.
Qed.

End ZoneFacts.

(** X11. The zone-keyed inventory built by [list_all_instances]. A zone
    is a key exactly when the aggregated listing gives at least one instance
    for it, and it maps to the host records of all the instances that the
    listing gives for this zone, in order, also when the zone comes up in
    several pairs of the listing. No zone is there twice. *)
Theorem gcp_zone_inventory :
  forall (A : Type) (c : Gcp.cloud (A:=A)),
  exists all_instances,
    Gcp.list_all_instances c = Gcp.ZoneMapping all_instances /\
    NoDup (Dict.keys all_instances) /\
    forall z,
      Dict.get z all_instances
      = match Gcp.instances_in_zone (Gcp.aggregated_list c) z with
        | [] => None
        | l => Some (map Gcp.hostdata l)
        end.
Proof.
  intros A c.
  destruct (zone_pages (Gcp.aggregated_list c) Dict.empty) as [H1 [H2 H3]].
  match type of H1 with
  | _ -> NoDup (Dict.keys ?d) => set (all_instances := d) in *
  end.
  exists all_instances. split; [reflexivity|].
  split; [apply H1; constructor|].
  intros z. specialize (H2 z). specialize (H3 z).
  change (addresses_of z Dict.empty) with (@nil (Gcp.host (A:=A))) in H3.
  cbn [app] in H3. unfold addresses_of in H3.
  destruct (Gcp.instances_in_zone (Gcp.aggregated_list c) z) as [|i r] eqn:E.
  - apply get_none_keys. rewrite H2. intros [H|[]]. now apply H.
  - destruct (Dict.get z all_instances) as [v|] eqn:Eg.
    + cbn [Py.get_or] in H3. now rewrite H3.
    + exfalso. apply get_none_keys in Eg. apply Eg, H2. left. discriminate.
Qed.

Section GcpOutcomeFacts.

Context {I A : Type}.

Lemma gcp_aggregate_host_ready (d : @iplists A) (h : Gcp.host (A:=A)) :
  Gcp.aggregate_host (I:=I) d h
  = if Gcp.host_ready h
    then ret (extend_all (Gcp.group_names h)
                         (Py.get_or (Gcp.private_address h) []) d)
    else raise Py.TypeError.
Proof.
  unfold Gcp.host_ready, Gcp.group_names.
  destruct (Gcp.private_address h) as [addrs|] eqn:Ea.
  - rewrite (gcp_aggregate_host_bound (I:=I) d h Ea).
    destruct (Gcp.host_labels h); reflexivity.
  - destruct (Gcp.host_labels h) as [|l r] eqn:El.
    + now rewrite gcp_aggregate_host_unlabelled.
    + apply gcp_aggregate_host_unbound; [exact Ea | congruence].
Qed.

Lemma gcp_aggregate_hosts (hosts : list (Gcp.host (A:=A))) (d : @iplists A) :
  fold_run (I:=I) Gcp.aggregate_host hosts d
  = if forallb Gcp.host_ready hosts
    then ret (fold_left
                (fun d h => extend_all (Gcp.group_names h)
                                       (Py.get_or (Gcp.private_address h) []) d)
                hosts d)
    else raise Py.TypeError.
Proof.
  revert d. induction hosts as [|h r IH]; intros d; [reflexivity|].
  cbn [fold_run forallb fold_left]. rewrite gcp_aggregate_host_ready.
  destruct (Gcp.host_ready h); [|reflexivity].
  rewrite bind_ret_l. apply IH.
Qed.

Lemma gcp_aggregate_value (all_instances : Dict.t (list (Gcp.host (A:=A)))) :
  Gcp.aggregate (I:=I) (Gcp.ZoneMapping all_instances)
  = if forallb Gcp.host_ready (Gcp.hosts_of all_instances)
    then ret (fold_left
                (fun d h => extend_all (Gcp.group_names h)
                                       (Py.get_or (Gcp.private_address h) []) d)
                (Gcp.hosts_of all_instances) Dict.empty)
    else raise Py.TypeError.
Proof.
  unfold Gcp.aggregate, Gcp.hosts_of, Dict.items.
  generalize (@Dict.empty (list A)) as d.
  induction all_instances as [|[z hosts] r IH]; intros d; [reflexivity|].
  cbn [fold_run flat_map snd]. rewrite gcp_aggregate_hosts.
  rewrite forallb_app, fold_left_app.
  destruct (forallb Gcp.host_ready hosts); [|reflexivity].
  rewrite bind_ret_l. apply IH.
Qed.

End GcpOutcomeFacts.

(** X12. When the GCP aggregation succeeds. Over a zone-keyed inventory
    the aggregation ends without exception exactly when every host that has
    a label has the key ['private_address']; otherwise it raises TypeError
    and builds nothing, wherever the faulty host stands in the scan. For a
    host record built from a listed instance this means: every labelled
    instance has at least one network interface. *)
Theorem gcp_aggregation_outcome :
  (forall (I A : Type) (all_instances : Dict.t (list (Gcp.host (A:=A)))),
      (forallb Gcp.host_ready (Gcp.hosts_of all_instances) = true ->
       exists g, Gcp.aggregate (I:=I) (Gcp.ZoneMapping all_instances)
                 = ([], Ok g)) /\
      (forallb Gcp.host_ready (Gcp.hosts_of all_instances) = false ->
       Gcp.aggregate (I:=I) (Gcp.ZoneMapping all_instances)
       = ([], Raise _ Py.TypeError))) /\
  (forall (A : Type) (i : Gcp.raw_instance (A:=A)),
      Gcp.host_ready (Gcp.hostdata i) = true <->
      Gcp.labels i = [] \/ Gcp.network_interfaces i <> []).
Proof.
  split.
  - intros I A all_instances. rewrite gcp_aggregate_value.
    destruct (forallb Gcp.host_ready (Gcp.hosts_of all_instances)); split;
      try discriminate; intros _; [eexists|]; reflexivity.
  - intros A i. unfold Gcp.host_ready.
    rewrite gcp_hostdata_private_address. cbn [Gcp.host_labels Gcp.hostdata].
    destruct (Gcp.labels i) as [|l r]; [tauto|].
    destruct (Gcp.network_interfaces i) as [|a n].
    + split; [discriminate|]. intros [H|H]; [discriminate | congruence].
    + split; [intros _; right; discriminate | reflexivity].
Qed.

Lemma gcp_aggregation_outcome_witness :
  Gcp.aggregate (I:=unit)
    (Gcp.ZoneMapping
       [("zones/a", [Gcp.hostdata Sample.gcp_bound]);
        ("zones/b", [Gcp.hostdata Sample.gcp_unlabelled;
                     Gcp.hostdata Sample.gcp_unbound])])
  = ([], Raise _ Py.TypeError) /\
  Gcp.host_ready (Gcp.hostdata Sample.gcp_unlabelled) = true.
Proof.
  destruct gcp_aggregation_outcome as [Hagg Hready]. split.
  - apply Hagg. reflexivity.
  - apply Hready. left. reflexivity.
Defined.

(** X13. The content of the GCP aggregate. When the aggregation
    ends without exception, the list of every group is the concatenation,
    in the order of the scan over all the zones, of the address lists of the
    hosts that feed it, once per label that names it; an address is in a
    group exactly when some host that has this address feeds this group.
    The zone of a host plays no part: two inventories with the same hosts in
    the same order give the same result. *)
Theorem gcp_group_content :
  (forall (I A : Type) (all_instances : Dict.t (list (Gcp.host (A:=A)))) d g,
      outcome (Gcp.aggregate (I:=I) (Gcp.ZoneMapping all_instances)) = Ok d ->
      addresses_of g d
      = flat_map (fun h => deliveries g (Gcp.group_names h)
                                      (Py.get_or (Gcp.private_address h) []))
                 (Gcp.hosts_of all_instances) /\
      (forall a, In a (addresses_of g d) <->
                 exists h, In h (Gcp.hosts_of all_instances) /\
                           In g (Gcp.group_names h) /\
                           In a (Py.get_or (Gcp.private_address h) [])) /\
      (In g (Dict.keys d) <->
       exists h, In h (Gcp.hosts_of all_instances) /\
                 In g (Gcp.group_names h))) /\
  (forall (I A : Type) (all_instances all_instances'
                        : Dict.t (list (Gcp.host (A:=A)))),
      Gcp.hosts_of all_instances = Gcp.hosts_of all_instances' ->
      Gcp.aggregate (I:=I) (Gcp.ZoneMapping all_instances)
      = Gcp.aggregate (I:=I) (Gcp.ZoneMapping all_instances')).
Proof.
  split.
  - intros I A all_instances d g. rewrite gcp_aggregate_value.
    destruct (forallb Gcp.host_ready (Gcp.hosts_of all_instances));
      [|discriminate].
    intros [= <-].
    apply (scan_content (@Gcp.group_names A)
                        (fun h => Py.get_or (Gcp.private_address h) [])).
  - intros I A all_instances all_instances' E.
    rewrite !gcp_aggregate_value. now rewrite E.
Qed.

Lemma gcp_group_content_witness :
  Gcp.aggregate (I:=unit)
    (Gcp.ZoneMapping [("zones/a", [Gcp.hostdata Sample.gcp_bound]);
                      ("zones/b", [Gcp.hostdata Sample.gcp_unlabelled])])
  = Gcp.aggregate (I:=unit)
      (Gcp.ZoneMapping [("zones/c", [Gcp.hostdata Sample.gcp_bound;
                                     Gcp.hostdata Sample.gcp_unlabelled])]) /\
  addresses_of "env_prod" [("env_prod", ["10.128.0.2"])]
  = flat_map (fun h => deliveries "env_prod" (Gcp.group_names h)
                                  (Py.get_or (Gcp.private_address h) []))
             (Gcp.hosts_of [("zones/a", [Gcp.hostdata Sample.gcp_bound])]).
Proof.
  destruct gcp_group_content as [Hcontent Hzones]. split.
  - apply Hzones. reflexivity.
  - apply (Hcontent unit string
                    [("zones/a", [Gcp.hostdata Sample.gcp_bound])]
                    [("env_prod", ["10.128.0.2"])] "env_prod").
    reflexivity.
Defined.

(** ** Exit status and the order of the calls *)

Section ExitFacts.

Context {I A : Type}.

Lemma publish_ok_iff (server : smc A) (d : @iplists A) :
  outcome (publish (I:=I) server d) = Ok tt <->
  forall n l, In (n, l) d -> update_ok server n l = true.
Proof.
  induction d as [|[n l] r IH].
  - split; [intros _ ? ? [] | reflexivity].
  - rewrite publish_cons. destruct (update_ok server n l) eqn:E.
    + cbn [outcome snd]. fold (outcome (publish (I:=I) server r)).
      rewrite IH. split.
      * intros H n' l' [[= <- <-]|Hin]; [exact E | now apply H].
      * intros H n' l' Hin. apply H. now right.
    + split; [discriminate|]. intros H.
      rewrite (H n l) in E by now left. discriminate.
Qed.

Lemma exit_after_publish (server : smc A) (d : @iplists A) (code : Z) :
  match outcome (publish (I:=I) server d) with
  | Ok _ => SysExit unit 0
  | o => o
  end = SysExit unit code <->
  code = 0%Z /\ forall n l, In (n, l) d -> update_ok server n l = true.
Proof.
  rewrite <- publish_ok_iff.
  destruct (publish_outcome (I:=I) server d) as [H|H]; rewrite H.
  - split; [intros [= <-]; split; reflexivity | intros [-> _]; reflexivity].
  - split; [discriminate | intros [_ H']; discriminate].
Qed.

End ExitFacts.

(** X14. Exit status. The AWS and GCP scripts never exit with a status
    other than 0 and the Azure script only with 0 or 1: every failure of the
    management server leaves as an uncaught exception. In publish mode the
    AWS script exits with status 0 exactly when the login and the update of
    every group of the aggregate succeeded; likewise the Azure script once a
    subscription is scanned, and the GCP script provided the aggregation
    ended without exception. *)
Theorem exit_status :
  (forall (A : Type) cfg (server : smc A) vpc_ids batches code,
      outcome (Aws.main_on cfg server vpc_ids batches) = SysExit unit code <->
      code = 0%Z /\
      (Aws.report_only cfg = true \/
       (login_ok server = true /\
        forall n l, In (n, l) (Aws.aggregate cfg batches) ->
                    update_ok server n l = true))) /\
  (forall (A : Type) cfg (server : smc A) (c : Azure.cloud) code,
      Azure.scanned_subscriptions cfg c <> [] ->
      (outcome (Azure.main cfg server c) = SysExit unit code <->
       code = 0%Z /\
       (Azure.report_only cfg = true \/
        (login_ok server = true /\
         forall n l,
           In (n, l) (Azure.aggregate
                        (Azure.collect c (Azure.scanned_subscriptions cfg c))) ->
           update_ok server n l = true)))) /\
  (forall (A : Type) cfg (server : smc A) (c : Gcp.cloud) g code,
      outcome (Gcp.aggregate (I:=Gcp.inventory (A:=A)) (Gcp.inventory_of cfg c))
      = Ok g ->
      (outcome (Gcp.main cfg server c) = SysExit unit code <->
       code = 0%Z /\
       (Gcp.report_only cfg = true \/
        (login_ok server = true /\
         forall n l, In (n, l) g -> update_ok server n l = true)))) /\
  (forall (A : Type) cfg (server : smc A) (c : Azure.cloud) code,
      outcome (Azure.main cfg server c) = SysExit unit code ->
      code = 0%Z \/ code = 1%Z) /\
  (forall (A : Type) cfg (server : smc A) (c : Gcp.cloud) code,
      outcome (Gcp.main cfg server c) = SysExit unit code -> code = 0%Z).
Proof.
  assert (Hazure :
            forall (A : Type) cfg (server : smc A) (c : Azure.cloud) code,
              Azure.scanned_subscriptions cfg c <> [] ->
              (outcome (Azure.main cfg server c) = SysExit unit code <->
               code = 0%Z /\
               (Azure.report_only cfg = true \/
                (login_ok server = true /\
                 forall n l,
                   In (n, l)
                      (Azure.aggregate
                         (Azure.collect c (Azure.scanned_subscriptions cfg c))) ->
                   update_ok server n l = true)))).
  { intros A cfg server c code Hne.
    destruct (Azure.report_only cfg) eqn:Er.
    + rewrite azure_main_report by assumption. cbn [outcome snd].
      split; [intros [= <-]; auto | intros [-> _]; reflexivity].
    + rewrite azure_main_publish by assumption.
      destruct (login_ok server); cbn [outcome snd].
      * rewrite exit_after_publish. split.
        -- intros [-> H]. auto.
        -- intros [-> [H|[_ H]]]; [discriminate | auto].
      * split; [discriminate|].
        intros [_ [H|[H _]]]; discriminate. }
  assert (Hgcp :
            forall (A : Type) cfg (server : smc A) (c : Gcp.cloud) g code,
              outcome (Gcp.aggregate (I:=Gcp.inventory (A:=A))
                                     (Gcp.inventory_of cfg c)) = Ok g ->
              (outcome (Gcp.main cfg server c) = SysExit unit code <->
               code = 0%Z /\
               (Gcp.report_only cfg = true \/
                (login_ok server = true /\
                 forall n l, In (n, l) g -> update_ok server n l = true)))).
  { intros A cfg server c g code Hg.
    destruct (Gcp.report_only cfg) eqn:Er.
    + rewrite gcp_main_report, Hg by exact Er. cbn [outcome snd].
      split; [intros [= <-]; auto | intros [-> _]; reflexivity].
    + rewrite gcp_main_publish, Hg by exact Er.
      destruct (login_ok server); cbn [outcome snd].
      * rewrite exit_after_publish. split.
        -- intros [-> H]. auto.
        -- intros [-> [H|[_ H]]]; [discriminate | auto].
      * split; [discriminate|].
        intros [_ [H|[H _]]]; discriminate. }
  split; [|split; [exact Hazure|split; [exact Hgcp|split]]].
  - intros A cfg server vpc_ids batches code.
    destruct (Aws.report_only cfg) eqn:Er.
    + rewrite aws_main_on_report by exact Er. cbn [outcome snd].
      split; [intros [= <-]; auto | intros [-> _]; reflexivity].
    + rewrite aws_main_on_publish by exact Er.
      destruct (login_ok server); cbn [outcome snd].
      * rewrite exit_after_publish. split.
        -- intros [-> H]. auto.
        -- intros [-> [H|[_ H]]]; [discriminate | auto].
      * split; [discriminate|].
        intros [_ [H|[H _]]]; discriminate.
  - intros A cfg server c code Hout.
    destruct (Azure.scanned_subscriptions cfg c) as [|s r] eqn:Es.
    + rewrite azure_main_no_subscription in Hout by exact Es.
      injection Hout as <-. now right.
    + left. apply (Hazure A cfg server c code); [|exact Hout].
      rewrite Es. discriminate.
  - intros A cfg server c code Hout.
    destruct (outcome (Gcp.aggregate (I:=Gcp.inventory (A:=A))
                                     (Gcp.inventory_of cfg c)))
      as [g|e|code'] eqn:Eg.
    + now apply (Hgcp A cfg server c g code Eg).
    + exfalso. destruct (Gcp.report_only cfg) eqn:Er.
      * rewrite gcp_main_report, Eg in Hout by exact Er. discriminate.
      * rewrite gcp_main_publish, Eg in Hout by exact Er.
        destruct (login_ok server); discriminate.
    + exfalso.
      now apply (proj2 (gcp_aggregate_quiet (I:=Gcp.inventory (A:=A))
                                            (Gcp.inventory_of cfg c)) code').
Qed.

Lemma exit_status_witness :
  outcome (Aws.main_on (Sample.aws_config false) obliging []
                       [[Sample.aws_vm1; Sample.aws_vm2]])
  = SysExit unit 0 /\
  outcome (Azure.main {| Azure.subscription := Some "sub-1";
                         Azure.report_only := true |}
                      obliging (Sample.azure_cloud [] []))
  = SysExit unit 0.
Proof.
  destruct exit_status as [Haws [Hazure _]]. split.
  - apply Haws. split; [reflexivity|]. right. split; reflexivity.
  - apply Hazure; [discriminate|]. split; [reflexivity|]. now left.
Defined.

Section LoginFacts.

Context {A : Type}.

Lemma existsb_login_map_text {I X : Type} (f : X -> string) (l : list X) :
  existsb is_login (map (fun x => PrintText (I:=I) (A:=A) (f x)) l) = false.
Proof. induction l as [|x r IH]; simpl; auto. Qed.

End LoginFacts.

(** X15. The login among the events of a run without [--report_only].
    The events are the lines written to standard output and the calls to the
    management server; the listing requests to the cloud provider come before
    them and are not among them. In the AWS and GCP scripts, and in the Azure
    script when a subscription is scanned, the login is the first event and
    the only login of the run; when it fails the run ends there, in the
    exception, with no call sent. An Azure run that scans no subscription
    never logs in and sends no call. In the GCP script the login is made
    before the aggregation, so a run whose aggregation raises has already
    logged in. *)
Theorem login_comes_first :
  (forall (A : Type) cfg (server : smc A) vpc_ids batches,
      Aws.report_only cfg = false ->
      exists rest,
        trace (Aws.main_on cfg server vpc_ids batches) = Login :: rest /\
        existsb is_login rest = false /\
        (login_ok server = false ->
         rest = [] /\
         outcome (Aws.main_on cfg server vpc_ids batches)
         = Raise unit Py.ApiError)) /\
  (forall (A : Type) cfg (server : smc A) (c : Azure.cloud),
      Azure.report_only cfg = false ->
      Azure.scanned_subscriptions cfg c <> [] ->
      exists rest,
        trace (Azure.main cfg server c) = Login :: rest /\
        existsb is_login rest = false /\
        (login_ok server = false ->
         rest = [] /\
         outcome (Azure.main cfg server c) = Raise unit Py.ApiError)) /\
  (forall (A : Type) cfg (server : smc A) (c : Azure.cloud),
      Azure.scanned_subscriptions cfg c = [] ->
      existsb is_login (trace (Azure.main cfg server c)) = false /\
      publish_calls (trace (Azure.main cfg server c)) = []) /\
  (forall (A : Type) cfg (server : smc A) (c : Gcp.cloud),
      Gcp.report_only cfg = false ->
      exists rest,
        trace (Gcp.main cfg server c) = Login :: rest /\
        existsb is_login rest = false /\
        (login_ok server = false ->
         rest = [] /\
         outcome (Gcp.main cfg server c) = Raise unit Py.ApiError) /\
        (forall e,
            login_ok server = true ->
            outcome (Gcp.aggregate (I:=Gcp.inventory (A:=A))
                                   (Gcp.inventory_of cfg c)) = Raise _ e ->
            Gcp.main cfg server c = ([Login], Raise unit e))).
Proof.
  split; [|split; [|split]].
  - intros A cfg server vpc_ids batches Er.
    rewrite aws_main_on_publish by exact Er.
    destruct (login_ok server).
    + eexists. split; [reflexivity|]. split; [|discriminate].
      apply publish_no_login_no_print.
    + exists []. repeat split.
  - intros A cfg server c Er Hne.
    rewrite azure_main_publish by assumption.
    destruct (login_ok server).
    + eexists. split; [reflexivity|]. split; [|discriminate].
      rewrite existsb_app, existsb_login_map_text.
      apply publish_no_login_no_print.
    + exists []. repeat split.
  - intros A cfg server c Es.
    rewrite azure_main_no_subscription by exact Es. split; reflexivity.
  - intros A cfg server c Er.
    rewrite gcp_main_publish by exact Er.
    destruct (login_ok server).
    + destruct (outcome (Gcp.aggregate (Gcp.inventory_of cfg c)))
        as [g|e|code].
      * eexists. split; [reflexivity|].
        split; [apply publish_no_login_no_print|].
        split; [discriminate|]. intros e _ H. discriminate.
      * exists []. split; [reflexivity|]. split; [reflexivity|].
        split; [discriminate|]. intros e' _ [= <-]. reflexivity.
      * exists []. split; [reflexivity|]. split; [reflexivity|].
        split; [discriminate|]. intros e' _ H. discriminate.
    + exists []. repeat split. intros e H. discriminate.
Qed.

Lemma login_comes_first_witness :
  (exists rest,
      trace (Aws.main_on (Sample.aws_config false) (refusing "env_prod") []
                         [[Sample.aws_vm1_two_tags]]) = Login :: rest /\
      existsb is_login rest = false) /\
  (exists rest,
      trace (Azure.main {| Azure.subscription := Some "sub-1";
                           Azure.report_only := false |}
                        obliging
                        (Sample.azure_cloud [] [Sample.azure_raw_windows]))
      = Login :: rest /\
      existsb is_login rest = false) /\
  existsb is_login
    (trace (Azure.main {| Azure.subscription := None;
                          Azure.report_only := false |}
                       obliging
                       (Sample.azure_cloud [] [Sample.azure_raw_windows])))
  = false /\
  exists rest,
    trace (Gcp.main {| Gcp.zone := None; Gcp.report_only := false |}
                    obliging (Sample.gcp_cloud [Sample.gcp_unbound]))
    = Login :: rest /\
    existsb is_login rest = false.
Proof.
  destruct login_comes_first as [Haws [Hazure [Hnone Hgcp]]].
  split; [|split; [|split]].
  - destruct (Haws string (Sample.aws_config false) (refusing "env_prod") []
                   [[Sample.aws_vm1_two_tags]] eq_refl)
      as [rest [H1 [H2 _]]].
    exists rest. split; assumption.
  - destruct (Hazure string
                     {| Azure.subscription := Some "sub-1";
                        Azure.report_only := false |}
                     obliging
                     (Sample.azure_cloud [] [Sample.azure_raw_windows])
                     eq_refl)
      as [rest [H1 [H2 _]]]; [discriminate|].
    exists rest. split; assumption.
  - apply Hnone. reflexivity.
  - destruct (Hgcp string {| Gcp.zone := None; Gcp.report_only := false |}
                   obliging (Sample.gcp_cloud [Sample.gcp_unbound]) eq_refl)
      as [rest [H1 [H2 _]]].
    exists rest. split; assumption.
Defined.

(** ** The VPC listing *)

Section VpcFacts.

Lemma describe_vpc_rest_total fuel (vpcs : list Aws.raw_vpc) page_size t :
  1 <= page_size -> length vpcs - S t < fuel ->
  exists pages,
    Aws.describe_vpc_rest fuel vpcs page_size (S t) = Some pages /\
    concat pages = map Aws.normalize_vpc (skipn (S t) vpcs) /\
    Forall (fun page => length page <= page_size) pages.
Proof.
  revert t. induction fuel as [|fuel IH]; intros t Hps Hfuel; [lia|].
  cbn [Aws.describe_vpc_rest Aws.describe_vpcs].
  destruct (Nat.ltb (S t + page_size) (length vpcs)) eqn:E.
  - apply Nat.ltb_lt in E.
    destruct (IH (t + page_size) Hps) as [pages [Hp [Hc Hb]]]; [lia|].
    replace (S t + page_size) with (S (t + page_size)) by lia.
    rewrite Hp. cbn [option_map]. eexists. split; [reflexivity|]. split.
    + cbn [concat]. rewrite Hc, <- map_app. f_equal.
      replace (S (t + page_size)) with (page_size + S t) by lia.
      rewrite <- skipn_skipn. apply firstn_skipn.
    + constructor; [|exact Hb]. rewrite length_map. apply firstn_le_length.
  - apply Nat.ltb_ge in E. eexists. split; [reflexivity|]. split.
    + cbn [concat]. rewrite app_nil_r. f_equal. apply firstn_all2.
      rewrite length_skipn. lia.
    + constructor; [|constructor]. rewrite length_map.
      apply firstn_le_length.
Qed.

End VpcFacts.

(** X17. The pages of the VPC listing. For a page size of at least one, and
    fuel for one call per VPC, the generator [describe_vpc_all] ends; it
    yields at least one page, no page holds more than the page size, and the
    pages put end to end are the abbreviated records of all the VPCs, each
    once, in the order of the listing. *)
Theorem vpc_pages_cover_the_listing :
  forall fuel (vpcs : list Aws.raw_vpc) page_size,
    1 <= page_size -> length vpcs <= fuel ->
    exists pages,
      Aws.describe_vpc_all fuel vpcs page_size = Some pages /\
      pages <> [] /\
      concat pages = map Aws.normalize_vpc vpcs /\
      Forall (fun page => length page <= page_size) pages.
Proof.
  intros fuel vpcs page_size Hps Hfuel. unfold Aws.describe_vpc_all.
  cbn [Aws.describe_vpcs]. rewrite Nat.add_0_l.
  destruct (Nat.ltb page_size (length vpcs)) eqn:E.
  - apply Nat.ltb_lt in E. destruct page_size as [|t]; [lia|].
    destruct (@describe_vpc_rest_total fuel vpcs (S t) t)
      as [pages [Hp [Hc Hb]]]; [lia | lia |].
    rewrite Hp. cbn [option_map]. eexists. split; [reflexivity|].
    split; [discriminate|]. split.
    + cbn [concat]. rewrite Hc, <- map_app. f_equal. apply firstn_skipn.
    + constructor; [|exact Hb]. rewrite length_map. apply firstn_le_length.
  - apply Nat.ltb_ge in E. eexists. split; [reflexivity|].
    split; [discriminate|]. split.
    + cbn [concat]. rewrite app_nil_r. f_equal. now apply firstn_all2.
    + constructor; [|constructor]. rewrite length_map.
      apply firstn_le_length.
Qed.

Lemma vpc_pages_cover_the_listing_witness :
  exists pages,
    Aws.describe_vpc_all 2 [Sample.vpc_two_names; Sample.vpc_unnamed] 1
    = Some pages /\
    concat pages
    = map Aws.normalize_vpc [Sample.vpc_two_names; Sample.vpc_unnamed].
Proof.
  destruct (@vpc_pages_cover_the_listing
              2 [Sample.vpc_two_names; Sample.vpc_unnamed] 1)
    as [pages [H1 [_ [H2 _]]]]; [lia | simpl; lia |].
  exists pages. split; assumption.
Defined.

(** ** What an AWS publish run depends on *)

Section PublishRunFacts.

Context {A : Type}.


End PublishRunFacts.


